(** * Stride TabPFN proof of concept: a model of [scripts/tabpfn-poc.py]

    The script loads energy logs from a DuckDB store (or synthesises them),
    derives lag, rolling-mean and cyclic day features per user, selects a
    fixed list of feature columns, evaluates a classifier and prints a
    verdict.  This file embeds the script function by function and proves
    the properties its specification lists.

    Conventions of the embedding:
    - a pandas [Series] is a list of cells, a [DataFrame] an index of row
      labels with an ordered association list of named columns;
    - [None], [NaN], [NaT] and SQL [NULL] are the one cell [NA];
    - numbers held in a frame are exact rationals ([Q]); the accuracy
      figures of the evaluator are binary64 floats ([PrimFloat]), compared
      exactly as Python compares them;
    - exceptions, [sys.exit], printing, the global numpy random state and
      the calls into DuckDB and scikit-learn are explicit: a computation is
      a function from a state to an outcome and a new state. *)

From Stdlib Require Import QArith Qround Floats.
From stdpp Require Import gmap strings list sorting.

Set Warnings "-inexact-float".

(** ** Outcomes: normal return, a raised exception, or [sys.exit] *)

Inductive exn : Type :=
| KeyError (key : string)
| ValueError (msg : string)
| TypeError (msg : string).

Inductive outcome (A : Type) : Type :=
| Ok (a : A)
| Raise (e : exn)
| SysExit (code : Z).
Arguments Ok {A} a.
Arguments Raise {A} e.
Arguments SysExit {A} code.

#[export] Instance outcome_ret : MRet outcome := @Ok.
#[export] Instance outcome_bind : MBind outcome := λ A B f m,
  match m with
  | Ok a => f a
  | Raise e => Raise e
  | SysExit c => SysExit c
  end.

(** ** Cells and series *)

Inductive cell : Type :=
| NA
| Num (q : Q)
| Str (s : string)
| Date (d : Z).

#[export] Instance cell_inhabited : Inhabited cell := populate NA.
#[export] Instance Q_eq_dec : EqDecision Q.
Proof. solve_decision. Defined.
#[export] Instance cell_eq_dec : EqDecision cell.
Proof. solve_decision. Defined.

Definition isna (c : cell) : bool :=
  match c with NA => true | _ => false end.

Definition notna (c : cell) : bool := negb (isna c).

Module Series.

(** [s.shift(k)]: every value moves [k] places down, the first [k]
    places are filled with [NA], the length is kept. *)
Definition shift (k : nat) (xs : list cell) : list cell :=
  take (length xs) (replicate k NA ++ xs).

(** The numeric observations of a window: [NA] is skipped. *)
Definition observations (xs : list cell) : list Q :=
  omap (λ c, match c with Num q => Some q | _ => None end) xs.

Definition Qsum (qs : list Q) : Q := foldr Qplus 0%Q qs.

(** Arithmetic mean of a non-empty list of numbers. *)
Definition mean (qs : list Q) : Q :=
  (Qsum qs / inject_Z (Z.of_nat (length qs)))%Q.

(** The trailing window of width [w] that ends at position [i]. *)
Definition window (w i : nat) (xs : list cell) : list cell :=
  drop (S i - w) (take (S i) xs).

(** [s.rolling(w, min_periods=m).mean()]: the mean of the observations
    of the trailing window, [NA] when there are fewer than [m]. *)
Definition window_mean (m : nat) (win : list cell) : cell :=
  let obs := observations win in
  if decide (m ≤ length obs ∧ 0 < length obs) then Num (mean obs) else NA.

Definition rolling_mean (w m : nat) (xs : list cell) : list cell :=
  imap (λ i _, window_mean m (window w i xs)) xs.

(** [s.nunique()]: number of distinct values, [NA] not counted. *)
Definition nunique (xs : list cell) : nat :=
  length (remove_dups (filter (λ c, c ≠ NA) xs)).

End Series.

(** ** Group-wise transforms: [df.groupby(key)[col].transform(f)]

  The rows whose key is [k] form the group of [k], in frame order; [f]
  runs on each group's values and every row receives the result at its
  rank inside its group.  Rows with a missing key belong to no group
  and receive [NA]. *)

Module GroupBy.

Definition members (keys xs : list cell) (k : cell) : list cell :=
  (filter (λ kx : cell * cell, kx.1 = k) (zip keys xs)).*2.

Definition rank (keys : list cell) (p : nat) (k : cell) : nat :=
  length (filter (λ k', k' = k) (take p keys)).

Definition transform (f : list cell → list cell)
    (keys xs : list cell) : list cell :=
  imap (λ p k,
          if isna k then NA
          else default NA (f (members keys xs k) !! rank keys p k))
       keys.

Definition shift (n : nat) : list cell → list cell → list cell :=
  transform (Series.shift n).

End GroupBy.

(** ** The order in which values sort

    Numbers sort by value, strings by code point, dates by day; missing
    values sort last (pandas [na_position='last'], DuckDB [NULLS LAST]).
    A column holds values of one kind, so the order between kinds is
    there only to make the relation total. *)

Definition kind (c : cell) : nat :=
  match c with Num _ => 0 | Str _ => 1 | Date _ => 2 | NA => 3 end.

Definition cell_le (a b : cell) : Prop :=
  match a, b with
  | Num x, Num y => (x <= y)%Q
  | Str x, Str y => String.le x y
  | Date x, Date y => (x ≤ y)%Z
  | _, _ => kind a ≤ kind b
  end.

#[export] Instance cell_le_dec : RelDecision cell_le.
Proof.
  intros [|x|x|x] [|y|y|y]; simpl; try apply _.
  unfold Qle. apply _.
Defined.

(** Rows compare by their first key, ties by the next one. *)
Fixpoint lex_le (a b : list cell) : Prop :=
  match a, b with
  | x :: a', y :: b' => ¬ cell_le y x ∨ (cell_le x y ∧ lex_le a' b')
  | _, _ => True
  end.

#[export] Instance lex_le_dec : RelDecision lex_le.
Proof.
  intros a. induction a as [|x a IH]; intros [|y b]; simpl; apply _.
Defined.

(** ** Data frames *)

Record DataFrame : Type := mkFrame {
  index : list nat;                       (* row labels *)
  columns : list (string * list cell);    (* named columns, in order *)
}.

(** [pd.DataFrame()] *)
Definition empty_frame : DataFrame := mkFrame [] [].

Module DataFrame.

Definition names (df : DataFrame) : list string := (columns df).*1.

(** [len(df)] *)
Definition len (df : DataFrame) : nat := length (index df).

(** [df.empty]: some axis has length zero. *)
Definition empty (df : DataFrame) : bool :=
  bool_decide (index df = []) || bool_decide (columns df = []).

Fixpoint lookup_col (name : string) (cols : list (string * list cell))
    : option (list cell) :=
  match cols with
  | [] => None
  | (n, xs) :: cols' => if decide (n = name) then Some xs else lookup_col name cols'
  end.

(** [df[name]]: a missing column raises [KeyError]. *)
Definition getitem (df : DataFrame) (name : string) : outcome (list cell) :=
  match lookup_col name (columns df) with
  | Some xs => Ok xs
  | None => Raise (KeyError name)
  end.

Fixpoint assign_col (name : string) (xs : list cell)
    (cols : list (string * list cell)) : list (string * list cell) :=
  match cols with
  | [] => [(name, xs)]
  | (n, ys) :: cols' =>
      if decide (n = name) then (n, xs) :: cols'
      else (n, ys) :: assign_col name xs cols'
  end.

(** [df[name] = xs]: an existing column is replaced in place, a new one is
    appended after the others. *)
Definition setitem (df : DataFrame) (name : string) (xs : list cell)
    : DataFrame :=
  mkFrame (index df) (assign_col name xs (columns df)).

(** The rows a boolean mask keeps. *)
Fixpoint select {A : Type} (mask : list bool) (xs : list A) : list A :=
  match mask, xs with
  | b :: mask', x :: xs' =>
      if b then x :: select mask' xs' else select mask' xs'
  | _, _ => []
  end.

(** Row [p] holds a missing value in some column. *)
Definition row_has_na (df : DataFrame) (p : nat) : bool :=
  existsb (λ c : string * list cell,
             match c.2 !! p with Some x => isna x | None => false end)
          (columns df).

(** [df.dropna()]: the rows without a missing value in any column; the
    labels of the kept rows are unchanged. *)
Definition dropna (df : DataFrame) : DataFrame :=
  let mask := (λ p, negb (row_has_na df p)) <$> seq 0 (len df) in
  mkFrame (select mask (index df))
          (prod_map id (select mask) <$> columns df).

(** [df.take(rows)]: the rows at the given positions, in that order. *)
Definition take_rows (rows : list nat) (df : DataFrame) : DataFrame :=
  mkFrame ((λ p, index df !!! p) <$> rows)
          (prod_map id (λ xs : list cell, (λ p, xs !!! p) <$> rows)
             <$> columns df).

(** [df[cols].values]: one row of cells per frame row. *)
Definition values (df : DataFrame) (cols : list string)
    : outcome (list (list cell)) :=
  data ← mapM (getitem df) cols;
  Ok ((λ p, (λ xs : list cell, xs !!! p) <$> data) <$> seq 0 (len df)).

Definition row_key (keys : list (list cell)) (p : nat) : list cell :=
  (λ xs : list cell, xs !!! p) <$> keys.

Definition rows_le (keys : list (list cell)) (p q : nat) : Prop :=
  lex_le (row_key keys p) (row_key keys q).

#[global] Instance rows_le_dec keys : RelDecision (rows_le keys).
Proof. intros p q. unfold rows_le. apply _. Defined.

(** [df.sort_values(by)]: the row positions are sorted by their keys and
    the rows taken in that order, each with its label. *)
Definition sort_values (df : DataFrame) (by_ : list string)
    : outcome DataFrame :=
  keys ← mapM (getitem df) by_;
  let order :=
    merge_sort (rows_le keys) (seq 0 (len df)) in
  Ok (take_rows order df).

End DataFrame.

(** ** numpy: rounding, clipping, random draws, sine and cosine *)

(** [np.round]: to the nearest integer, halves to the even neighbour. *)
Definition np_round (q : Q) : Z :=
  let f := Qfloor q in
  match (q - inject_Z f ?= 1 # 2)%Q with
  | Lt => f
  | Gt => (f + 1)%Z
  | Eq => if Z.even f then f else (f + 1)%Z
  end.

(** [np.round(x, 1)]: one decimal. *)
Definition np_round1 (q : Q) : Q :=
  (inject_Z (np_round (q * 10)) / 10)%Q.

(** [x.clip(lo, hi)] *)
Definition clip (lo hi x : Q) : Q :=
  if Qle_bool x lo then lo else if Qle_bool hi x then hi else x.

(** What the script takes from numpy without defining it: the global
    random generator, one draw at a time, and the float constants and
    functions of the cyclic encoding. *)
Class Numpy : Type := {
  RandomState : Type;
  np_random_seed : Z → RandomState;
  np_random_normal : Q → Q → RandomState → Q * RandomState;
  np_random_uniform : Q → Q → RandomState → Q * RandomState;
  np_random_choice : list Z → RandomState → Z * RandomState;
  np_pi : Q;
  np_sin : Q → Q;
  np_cos : Q → Q;
}.

(** An array of [n] draws: the generator state runs through them. *)
Fixpoint draws {G A : Type} (draw : G → A * G) (n : nat) (g : G)
    : list A * G :=
  match n with
  | 0 => ([], g)
  | S n' =>
      let '(x, g1) := draw g in
      let '(xs, g2) := draws draw n' g1 in
      (x :: xs, g2)
  end.

(** ** The store *)

(** A row of [energy_logs]; every column is nullable. *)
Record energy_log : Type := mkLog {
  user_id : option string;
  log_date : option Z;            (* days since 1970-01-01 *)
  energy_level : option Q;
  mood_score : option Q;
  stress_level : option Q;
  hours_slept : option Q;
  notes : option string;
}.

(** A row of [academic_events]. *)
Record academic_event : Type := mkEvent {
  ev_user_id : option string;
  event_date : option Z;
  event_type : option string;
  stress_multiplier : option Q;
}.

Record database : Type := mkDb {
  tables : list string;                   (* [SHOW TABLES] *)
  energy_logs : list energy_log;
  academic_events : list academic_event;
  current_date : Z;                       (* [CURRENT_DATE] *)
}.

Definition of_str (o : option string) : cell := from_option Str NA o.
Definition of_num (o : option Q) : cell := from_option Num NA o.
Definition of_date (o : option Z) : cell := from_option Date NA o.

(** The three statements the script sends to the store. *)
Inductive sql : Type :=
| SHOW_TABLES
| SELECT_energy_logs        (* the query of [load_energy_data] *)
| SELECT_academic_events.   (* the query of [load_academic_events] *)

Definition log_key (r : energy_log) : list cell :=
  [of_str (user_id r); of_date (log_date r)].

Definition logs_le (r1 r2 : energy_log) : Prop :=
  lex_le (log_key r1) (log_key r2).

#[export] Instance logs_le_dec : RelDecision logs_le.
Proof. intros r1 r2. unfold logs_le. apply _. Defined.

(** [SELECT ... FROM energy_logs WHERE energy_level IS NOT NULL
     ORDER BY user_id, log_date] *)
Definition select_energy_logs (db : database) : list energy_log :=
  merge_sort logs_le
    (filter (λ r, energy_level r ≠ None) (energy_logs db)).

(** [.df()] of that result: seven columns, rows labelled from 0. *)
Definition energy_frame (rows : list energy_log) : DataFrame :=
  mkFrame (seq 0 (length rows))
    [ ("user_id", (of_str ∘ user_id) <$> rows);
      ("log_date", (of_date ∘ log_date) <$> rows);
      ("energy_level", (of_num ∘ energy_level) <$> rows);
      ("mood_score", (of_num ∘ mood_score) <$> rows);
      ("stress_level", (of_num ∘ stress_level) <$> rows);
      ("hours_slept", (of_num ∘ hours_slept) <$> rows);
      ("notes", (of_str ∘ notes) <$> rows) ].

(** [SELECT ... FROM academic_events
     WHERE event_date >= CURRENT_DATE - INTERVAL '30 days'] *)
Definition trailing_30_days (db : database) (e : academic_event) : bool :=
  match event_date e with
  | Some d => bool_decide (current_date db - 30 ≤ d)%Z
  | None => false
  end.

Definition select_academic_events (db : database) : list academic_event :=
  filter (λ e, trailing_30_days db e) (academic_events db).

Definition events_frame (rows : list academic_event) : DataFrame :=
  mkFrame (seq 0 (length rows))
    [ ("user_id", (of_str ∘ ev_user_id) <$> rows);
      ("event_date", (of_date ∘ event_date) <$> rows);
      ("event_type", (of_str ∘ event_type) <$> rows);
      ("stress_multiplier", (of_num ∘ stress_multiplier) <$> rows) ].

(** ** Printed lines and the result dictionary *)

(** An f-string is kept as its pieces: the literal text and the values
    formatted into it. *)
Inductive piece : Type :=
| Lit (s : string)
| FNat (n : nat)                (* an [int], as [len] returns it *)
| FStrList (l : list string)    (* a list of [str] *)
| FIntList (l : list Z)         (* a list or array of [int] *)
| FPct (x : float)              (* a float under [:.2%] *)
| FPath (p : string).           (* a [Path] *)

Definition fstring : Type := list piece.

Definition nl : string := String (Ascii.ascii_of_nat 10) "".

Fixpoint str_mul (s : string) (n : nat) : string :=
  match n with 0 => "" | S n' => s +:+ str_mul s n' end.

Definition matrix : Type := list (list cell).

(** What the script takes from scikit-learn and TabPFN. Each call
    returns a value ([inr]) or raises ([inl]); [cross_val_score] clones
    and refits the classifier it is given, so it may draw from the global
    random generator. *)
Class Sklearn `{Numpy} : Type := {
  train_test_split :
    matrix → list Z → exn + (matrix * matrix * list Z * list Z);
  tabpfn_model : Type;
  tabpfn_fit : matrix → list Z → exn + tabpfn_model;
  tabpfn_predict : tabpfn_model → matrix → exn + list Z;
  accuracy_score : list Z → list Z → exn + float;
  report : Type;
  classification_report : list Z → list Z → exn + report;
}.

Section Script.
Context `{np : Numpy} `{sk : !Sklearn}.

(** The two classifiers, with what [fit] stored in them. *)
Inductive classifier : Type :=
| TabPFNClassifier (fitted : option tabpfn_model)
| MockTabPFNClassifier (classes_ : option (list Z)).

(** [cross_val_score(clf, X, y, cv=5, scoring="accuracy")] *)
Variable cross_val_score :
  classifier → matrix → list Z → RandomState →
  (exn + list float) * RandomState.

Inductive pyval : Type :=
| PStr (s : fstring)
| PInt (n : nat)
| PFloat (x : float)
| PInts (l : list Z)
| PReport (r : report).

(** ** Effects *)

Inductive event : Type :=
| Print (line : fstring)
| Connect (path : string)
| Execute (q : sql)
| Close
| CallSplit (samples : nat)
| CallFit (clf : classifier) (samples : nat)
| CallPredict (clf : classifier) (samples : nat)
| CallAccuracy
| CallCrossVal (clf : classifier)
| CallReport.

Record state : Type := mkState {
  trace : list event;     (* what happened so far, oldest first *)
  rng : RandomState;      (* numpy's global generator *)
}.

Record M (A : Type) : Type := mkM { run : state → outcome A * state }.
#[global] Arguments mkM {A} run.
#[global] Arguments run {A} m s.

#[export] Instance M_ret : MRet M := λ A a, mkM (λ s, (Ok a, s)).
#[export] Instance M_bind : MBind M := λ A B f m,
  mkM (λ s,
    match run m s with
    | (Ok a, s') => run (f a) s'
    | (Raise e, s') => (Raise e, s')
    | (SysExit c, s') => (SysExit c, s')
    end).

#[export] Instance M_fmap : FMap M := λ A B f m, a ← m; mret (f a).

Definition lift {A} (o : outcome A) : M A := mkM (λ s, (o, s)).

(** The result of a library call: its value, or the exception raised. *)
Definition of_result {A} (r : exn + A) : outcome A :=
  match r with inl e => Raise e | inr a => Ok a end.

Definition invoke {A} (r : exn + A) : M A := lift (of_result r).

Definition emit (e : event) : M unit :=
  mkM (λ s, (Ok (), mkState (trace s ++ [e]) (rng s))).

Definition print (line : fstring) : M unit := emit (Print line).

Definition sys_exit {A} (code : Z) : M A := lift (SysExit code).

(** A computation on the global generator. *)
Definition random {A} (f : RandomState → A * RandomState) : M A :=
  mkM (λ s, let '(a, g) := f (rng s) in (Ok a, mkState (trace s) g)).

Fixpoint for_each {A B} (f : A → B → M A) (a : A) (l : list B) : M A :=
  match l with
  | [] => mret a
  | b :: l' => a' ← f a b; for_each f a' l'
  end.

(** [conn.execute(q)]: the statement is sent to the store. *)
Definition execute (q : sql) : M unit := emit (Execute q).

(** ** Configuration *)

Definition DEFAULT_DUCKDB_PATH : string := "./data/stride.duckdb".
Definition MIN_SAMPLES : nat := 20.

(** ** [MockTabPFNClassifier] *)

(** [np.unique]: the distinct values, ascending. *)
Definition np_unique (y : list Z) : list Z :=
  merge_sort Z.le (remove_dups y).

(** [clf.fit(X, y)] *)
Definition fit (clf : classifier) (X : matrix) (y : list Z) : M classifier :=
  emit (CallFit clf (length X));;
  match clf with
  | TabPFNClassifier _ =>
      m ← invoke (tabpfn_fit X y); mret (TabPFNClassifier (Some m))
  | MockTabPFNClassifier _ =>
      mret (MockTabPFNClassifier (Some (np_unique y)))
  end.

(** [clf.predict(X)]: the mock draws one observed class per row. *)
Definition predict (clf : classifier) (X : matrix) : M (list Z) :=
  emit (CallPredict clf (length X));;
  match clf with
  | TabPFNClassifier (Some m) => invoke (tabpfn_predict m X)
  | TabPFNClassifier None => lift (Raise (ValueError "not fitted"))
  | MockTabPFNClassifier (Some (c :: cs)) =>
      random (draws (np_random_choice (c :: cs)) (length X))
  | MockTabPFNClassifier _ =>
      lift (Raise (ValueError "a must be non-empty"))
  end.

(** ** [load_energy_data] *)

Definition lag_columns : list string :=
  ["energy_level"; "mood_score"; "stress_level"; "hours_slept"].

Definition rolling_columns : list string :=
  ["energy_level"; "mood_score"; "stress_level"].

(** [df[col + "_lag" + k] = df.groupby("user_id")[col].shift(k)] *)
Definition add_group_lag (k : nat) (suffix : string)
    (df : DataFrame) (col : string) : outcome DataFrame :=
  keys ← DataFrame.getitem df "user_id";
  xs ← DataFrame.getitem df col;
  Ok (DataFrame.setitem df (col +:+ suffix) (GroupBy.shift k keys xs)).

Definition add_group_lags (df : DataFrame) (col : string)
    : outcome DataFrame :=
  if decide (col ∈ DataFrame.names df) then
    df ← add_group_lag 1 "_lag1" df col;
    add_group_lag 7 "_lag7" df col
  else Ok df.

(** [df[col + "_rolling7"] = df.groupby("user_id")[col]
      .transform(lambda x: x.rolling(7, min_periods=1).mean())] *)
Definition add_group_rolling (df : DataFrame) (col : string)
    : outcome DataFrame :=
  if decide (col ∈ DataFrame.names df) then
    keys ← DataFrame.getitem df "user_id";
    xs ← DataFrame.getitem df col;
    Ok (DataFrame.setitem df (col +:+ "_rolling7")
          (GroupBy.transform (Series.rolling_mean 7 1) keys xs))
  else Ok df.

Fixpoint fold_outcome {A B} (f : A → B → outcome A) (a : A) (l : list B)
    : outcome A :=
  match l with
  | [] => Ok a
  | b :: l' => a' ← f a b; fold_outcome f a' l'
  end.

(** [pd.to_datetime] on a column of dates. *)
Definition to_datetime (c : cell) : outcome cell :=
  match c with
  | Date d => Ok (Date d)
  | NA => Ok NA
  | _ => Raise (TypeError "to_datetime")
  end.

(** [.dt.dayofweek]: Monday is 0; day 0 (1970-01-01) was a Thursday. *)
Definition dayofweek (d : Z) : Z := ((d + 3) `mod` 7)%Z.

Definition dt_dayofweek (c : cell) : cell :=
  match c with
  | Date d => Num (inject_Z (dayofweek d))
  | _ => NA
  end.

(** [np.sin(2 * np.pi * dow / 7)] and its cosine. *)
Definition cyclic (f : Q → Q) (c : cell) : cell :=
  match c with
  | Num dow => Num (f (2 * np_pi * dow / 7)%Q)
  | _ => NA
  end.

(** The lag features: [for col in lag_columns: ...] *)
Definition lag_features (df : DataFrame) : outcome DataFrame :=
  fold_outcome add_group_lags df lag_columns.

(** The rolling averages: [for col in rolling_columns: ...] *)
Definition rolling_features (df : DataFrame) : outcome DataFrame :=
  fold_outcome add_group_rolling df rolling_columns.

(** The day of the week and its cyclic encoding. *)
Definition cyclic_features (df : DataFrame) : outcome DataFrame :=
  dates ← DataFrame.getitem df "log_date";
  dates ← mapM to_datetime dates;
  let df := DataFrame.setitem df "log_date" dates in
  dates ← DataFrame.getitem df "log_date";
  let df := DataFrame.setitem df "day_of_week" (dt_dayofweek <$> dates) in
  dow ← DataFrame.getitem df "day_of_week";
  let df := DataFrame.setitem df "day_sin" (cyclic np_sin <$> dow) in
  dow ← DataFrame.getitem df "day_of_week";
  let df := DataFrame.setitem df "day_cos" (cyclic np_cos <$> dow) in
  Ok df.

(** The feature engineering of [load_energy_data], from the sort to the
    cyclic encoding: the frame on which the final [dropna] runs. *)
Definition build_features (df : DataFrame) : outcome DataFrame :=
  df ← DataFrame.sort_values df ["user_id"; "log_date"];
  df ← lag_features df;
  df ← rolling_features df;
  cyclic_features df.

Definition engineer (df : DataFrame) : outcome DataFrame :=
  df ← build_features df;
  Ok (DataFrame.dropna df).

Definition load_energy_data (conn : database) : M DataFrame :=
  execute SHOW_TABLES;;
  let table_names := tables conn in
  if decide ("energy_logs" ∉ table_names) then
    print [Lit "Table 'energy_logs' not found. Available tables: ";
           FStrList table_names];;
    mret empty_frame
  else
    execute SELECT_energy_logs;;
    let df := energy_frame (select_energy_logs conn) in
    if DataFrame.empty df then
      print [Lit "No energy_logs data found."];;
      mret df
    else
      users ← lift (DataFrame.getitem df "user_id");
      print [Lit "Loaded "; FNat (DataFrame.len df);
             Lit " energy log entries from ";
             FNat (Series.nunique users); Lit " users"];;
      lift (engineer df).

(** ** [load_academic_events] *)

Definition load_academic_events (conn : database) : M DataFrame :=
  execute SHOW_TABLES;;
  let table_names := tables conn in
  if decide ("academic_events" ∉ table_names) then
    mret empty_frame
  else
    execute SELECT_academic_events;;
    mret (events_frame (select_academic_events conn)).

(** ** [generate_synthetic_data] *)

(** 2024-01-01, a Monday, in days since 1970-01-01. *)
Definition start_date : Z := 19723.

(** [pd.date_range(start="2024-01-01", periods=n, freq="D")] *)
Definition date_range (n : nat) : list Z :=
  (λ i, start_date + Z.of_nat i)%Z <$> seq 0 n.

Definition add_lags (df : DataFrame) (col : string) : outcome DataFrame :=
  xs ← DataFrame.getitem df col;
  let df := DataFrame.setitem df (col +:+ "_lag1") (Series.shift 1 xs) in
  xs ← DataFrame.getitem df col;
  Ok (DataFrame.setitem df (col +:+ "_lag7") (Series.shift 7 xs)).

Definition add_rolling (df : DataFrame) (col : string) : outcome DataFrame :=
  xs ← DataFrame.getitem df col;
  Ok (DataFrame.setitem df (col +:+ "_rolling7")
        (Series.rolling_mean 7 1 xs)).

Definition num_of_Z (z : Z) : cell := Num (inject_Z z).

(** The body of [generate_synthetic_data] up to its [return]: the frame
    on which the final [dropna] runs. *)
Definition synthetic_frame (n_samples : nat) : M DataFrame :=
  random (λ _, ((), np_random_seed 42));;
  let dates := date_range n_samples in
  let day_of_week := dayofweek <$> dates in
  hours_slept ← fmap (clip 4 10) <$>
                  random (draws (np_random_normal 7 1.5) n_samples);
  stress_level ← random (draws (np_random_uniform 1 5) n_samples);
  mood_score ← fmap (clip 1 5) <$>
                 random (draws (np_random_normal 3.5 1) n_samples);
  let weekend_bonus :=
    (λ d, if bool_decide (5 ≤ d)%Z then 0.5 else 0)%Q <$> day_of_week in
  let sleep_effect := (λ h, (h - 7) * 0.3)%Q <$> hours_slept in
  let stress_effect := (λ t, - (t - 3) * 0.2)%Q <$> stress_level in
  noise ← random (draws (np_random_normal 0 0.5) n_samples);
  let energy_level :=
    zip_with Qplus
      (zip_with Qplus
         (zip_with Qplus ((λ e, 3 + e)%Q <$> sleep_effect) stress_effect)
         weekend_bonus)
      noise in
  let energy_level :=
    (λ e, clip 1 5 (inject_Z (np_round e))) <$> energy_level in
  let df := mkFrame (seq 0 n_samples)
    [ ("user_id", replicate n_samples (Str "synthetic_user"));
      ("log_date", Date <$> dates);
      ("energy_level", Num <$> energy_level);
      ("mood_score", (num_of_Z ∘ np_round) <$> mood_score);
      ("stress_level", (num_of_Z ∘ np_round) <$> stress_level);
      ("hours_slept", (Num ∘ np_round1) <$> hours_slept);
      ("notes", replicate n_samples NA) ] in
  df ← lift (fold_outcome add_lags df lag_columns);
  df ← lift (fold_outcome add_rolling df rolling_columns);
  let df := DataFrame.setitem df "day_sin"
              ((cyclic np_sin ∘ num_of_Z) <$> day_of_week) in
  let df := DataFrame.setitem df "day_cos"
              ((cyclic np_cos ∘ num_of_Z) <$> day_of_week) in
  mret df.

Definition generate_synthetic_data (n_samples : nat) : M DataFrame :=
  df ← synthetic_frame n_samples;
  mret (DataFrame.dropna df).

(** ** [prepare_features] *)

Definition feature_cols : list string :=
  [ "mood_score"; "stress_level"; "hours_slept";
    "energy_level_lag1"; "energy_level_lag7";
    "mood_score_lag1"; "stress_level_lag1";
    "energy_level_rolling7"; "mood_score_rolling7"; "stress_level_rolling7";
    "day_sin"; "day_cos" ].

(** [np.round(y).astype(int)] on one value. numpy leaves the conversion
    of a missing value unspecified; here it raises. *)
Definition round_to_int (c : cell) : outcome Z :=
  match c with
  | Num q => Ok (np_round q)
  | NA => Raise (ValueError "cannot convert NaN to integer")
  | _ => Raise (TypeError "round")
  end.

Definition available (df : DataFrame) : list string :=
  filter (λ c, c ∈ DataFrame.names df) feature_cols.

Definition prepare_features (df : DataFrame) : M (matrix * list Z) :=
  let available_cols := available df in
  if decide (length available_cols < 3) then
    print [Lit "Insufficient features. Available: ";
           FStrList available_cols];;
    mret ([], [])
  else
    X ← lift (DataFrame.values df available_cols);
    y ← lift (DataFrame.getitem df "energy_level");
    y ← lift (mapM round_to_int y);
    mret (X, y).

(** ** [evaluate_tabpfn] *)

Definition float_of_nat (n : nat) : float :=
  PrimFloat.of_uint63 (Uint63.of_Z (Z.of_nat n)).

(** [scores.mean()] and [scores.std()] of a short array of floats. *)
Definition np_mean (xs : list float) : float :=
  (foldl PrimFloat.add 0 xs / float_of_nat (length xs))%float.

Definition np_std (xs : list float) : float :=
  let m := np_mean xs in
  PrimFloat.sqrt (np_mean ((λ x, (x - m) * (x - m))%float <$> xs)).

(** [X.shape[1]] *)
Definition n_features (X : matrix) : nat :=
  match X with row :: _ => length row | [] => 0 end.

Definition evaluate_tabpfn (TABPFN_AVAILABLE : bool)
    (X : matrix) (y : list Z) : M (gmap string pyval) :=
  if decide (length X < MIN_SAMPLES) then
    mret {[ "error" := PStr [Lit "Insufficient samples ("; FNat (length X);
                             Lit " < "; FNat MIN_SAMPLES; Lit ")"];
            "samples" := PInt (length X) ]}
  else
    clf ← (if TABPFN_AVAILABLE then
             print [Lit "Using real TabPFN classifier"];;
             mret (TabPFNClassifier None)
           else
             print [Lit "Using mock classifier (TabPFN not installed)"];;
             mret (MockTabPFNClassifier None));
    emit (CallSplit (length X));;
    '(X_train, X_test, y_train, y_test) ← invoke (train_test_split X y);
    print [Lit nl; Lit "Dataset: "; FNat (length X); Lit " samples (";
           FNat (length X_train); Lit " train, "; FNat (length X_test);
           Lit " test)"];;
    print [Lit "Features: "; FNat (n_features X)];;
    print [Lit "Classes: "; FIntList (np_unique y)];;
    clf ← fit clf X_train y_train;
    y_pred ← predict clf X_test;
    emit CallAccuracy;;
    accuracy ← invoke (accuracy_score y_test y_pred);
    emit (CallCrossVal clf);;
    cv_scores ← mkM (λ s, let '(r, g) := cross_val_score clf X y (rng s) in
                          (of_result r, mkState (trace s) g));
    emit CallReport;;
    rep ← invoke (classification_report y_test y_pred);
    mret {[ "samples" := PInt (length X);
            "features" := PInt (n_features X);
            "classes" := PInts (np_unique y);
            "accuracy" := PFloat accuracy;
            "cv_mean" := PFloat (np_mean cv_scores);
            "cv_std" := PFloat (np_std cv_scores);
            "classification_report" := PReport rep ]}.

(** ** [main] *)

(** [results[key]] *)
Definition item (results : gmap string pyval) (key : string) : M pyval :=
  match results !! key with
  | Some v => mret v
  | None => lift (Raise (KeyError key))
  end.

(** How a value of the dictionary enters an f-string. *)
Definition fmt (v : pyval) : fstring :=
  match v with
  | PStr s => s
  | PInt n => [FNat n]
  | PFloat x => [FPct x]
  | PInts l => [FIntList l]
  | PReport _ => [Lit "{...}"]
  end.

Definition PROMISING : string := "PROMISING - TabPFN shows predictive power".
Definition MARGINAL : string :=
  "MARGINAL - Some signal, needs more data/features".
Definition WEAK : string := "WEAK - Consider alternative approaches".

(** The interpretation of the cross-validation mean. *)
Definition verdict_of (cv_mean : float) : string :=
  if (0.6 <? cv_mean)%float then PROMISING
  else if (0.4 <? cv_mean)%float then MARGINAL
  else WEAK.

(** [results["cv_mean"] > threshold] chain; a value that is not a float
    cannot occur, [evaluate_tabpfn] stores one. *)
Definition interpret (v : pyval) : M string :=
  match v with
  | PFloat cv_mean => mret (verdict_of cv_mean)
  | _ => lift (Raise (TypeError "cv_mean"))
  end.

Definition main (TABPFN_AVAILABLE : bool) (DUCKDB_PATH : string)
    (filesystem : gmap string database) : M (gmap string pyval) :=
  print [Lit (str_mul "=" 60)];;
  print [Lit "TabPFN 2.5 POC for Stride - Energy Prediction"];;
  print [Lit (str_mul "=" 60)];;
  print [];;
  let db_path := DUCKDB_PATH in
  '(df, use_synthetic) ←
    match filesystem !! db_path with
    | Some conn =>
        print [Lit "Connecting to DuckDB: "; FPath db_path];;
        emit (Connect db_path);;
        df ← load_energy_data conn;
        emit Close;;
        if DataFrame.empty df || bool_decide (DataFrame.len df < MIN_SAMPLES)
        then
          print [Lit nl;
                 Lit "Insufficient real data. Falling back to synthetic data."];;
          mret (df, true)
        else mret (df, false)
    | None =>
        print [Lit "Database not found: "; FPath db_path];;
        print [Lit "Using synthetic data for demonstration."];;
        mret (empty_frame, true)
    end;
  df ← (if use_synthetic : bool then
          df ← generate_synthetic_data 200;
          print [Lit nl; Lit "Generated "; FNat (DataFrame.len df);
                 Lit " synthetic energy logs"];;
          mret df
        else mret df);
  '(X, y) ← prepare_features df;
  (if decide (length X = 0) then
     print [Lit nl; Lit "Error: Could not prepare features. Exiting."];;
     sys_exit 1
   else mret ());;
  print [Lit nl; Lit (str_mul "-" 40)];;
  print [Lit "Evaluating TabPFN Classifier"];;
  print [Lit (str_mul "-" 40)];;
  results ← evaluate_tabpfn TABPFN_AVAILABLE X y;
  (if decide ("error" ∈ dom results) then
     err ← item results "error";
     print ([Lit nl; Lit "Error: "] ++ fmt err);;
     sys_exit 1
   else mret ());;
  print [Lit nl; Lit (str_mul "=" 40)];;
  print [Lit "RESULTS"];;
  print [Lit (str_mul "=" 40)];;
  samples ← item results "samples";
  print (Lit "Samples:     " :: fmt samples);;
  features ← item results "features";
  print (Lit "Features:    " :: fmt features);;
  classes ← item results "classes";
  print (Lit "Classes:     " :: fmt classes);;
  print [];;
  accuracy ← item results "accuracy";
  print (Lit "Test Accuracy:  " :: fmt accuracy);;
  cv_mean ← item results "cv_mean";
  cv_std ← item results "cv_std";
  print ([Lit "CV Accuracy:    "] ++ fmt cv_mean ++ [Lit " (+/- "]
         ++ fmt cv_std ++ [Lit ")"]);;
  print [];;
  cv_mean ← item results "cv_mean";
  verdict ← interpret cv_mean;
  print [Lit "Verdict: "; Lit verdict];;
  print [];;
  print [Lit "Next steps:"];;
  (if TABPFN_AVAILABLE then
     print [Lit "1. Collect more real energy data (target: 100+ samples)"];;
     print [Lit "2. Add academic event proximity features"];;
     print [Lit "3. Test on goal feasibility prediction"]
   else
     print [Lit "1. Install TabPFN: pip install tabpfn"];;
     print [Lit "2. Re-run with real classifier"];;
     print [Lit "3. Compare with XGBoost baseline"]);;
  mret results.

(** ** The script, from its imports to the call of [main] *)

Record world : Type := mkWorld {
  duckdb_installed : bool;
  sklearn_installed : bool;
  tabpfn_installed : bool;
  environ : gmap string string;
  filesystem : gmap string database;
}.

Definition script (w : world) : M (gmap string pyval) :=
  (if duckdb_installed w then mret ()
   else
     print [Lit "Error: duckdb not installed. Run: pip install duckdb"];;
     sys_exit 1);;
  (if sklearn_installed w then mret ()
   else
     print [Lit "Error: scikit-learn not installed. Run: pip install scikit-learn"];;
     sys_exit 1);;
  let TABPFN_AVAILABLE := tabpfn_installed w in
  (if TABPFN_AVAILABLE then mret ()
   else
     print [Lit "Warning: tabpfn not installed. Using mock classifier for demo."];;
     print [Lit "Install with: pip install tabpfn"]);;
  let DUCKDB_PATH :=
    default DEFAULT_DUCKDB_PATH (environ w !! "DUCKDB_PATH") in
  main TABPFN_AVAILABLE DUCKDB_PATH (filesystem w).

(** The exit status of the process: 0 when the script runs to its end, the
    argument of [sys.exit], 1 when an exception reaches the top level. *)
Definition exit_status {A} (o : outcome A) : Z :=
  match o with
  | Ok _ => 0
  | SysExit c => c
  | Raise _ => 1
  end.

End Script.

(** ** Notions used to state the properties *)

(** The positions at which a key column holds [k], ascending. *)
Definition positions (keys : list cell) (k : cell) : list nat :=
  filter (λ p, keys !! p = Some k) (seq 0 (length keys)).

(** The cell of column [col] at row position [p]. *)
Definition value (df : DataFrame) (col : string) (p : nat) : option cell :=
  DataFrame.lookup_col col (columns df) ≫= (.!! p).

(** The rows of user [u], in frame order. *)
Definition entity_rows (df : DataFrame) (u : string) : list nat :=
  from_option (λ keys, positions keys (Str u)) []
    (DataFrame.lookup_col "user_id" (columns df)).

(** The cells of a column at the given rows. *)
Definition values_at (df : DataFrame) (col : string) (rows : list nat)
    : list (option cell) :=
  value df col <$> rows.

(** Some lag column of row [p] is undefined. *)
Definition lag_undefined (df : DataFrame) (p : nat) : Prop :=
  ∃ col, col ∈ lag_columns ∧
    (value df (col +:+ "_lag1") p = Some NA ∨
     value df (col +:+ "_lag7") p = Some NA).

(** The seven columns of the query, and the twenty-one of the engineered
    frame, over arbitrary column contents. *)
Definition raw_frame (ix : list nat) (U D E Mo S H N : list cell)
    : DataFrame :=
  mkFrame ix
    [ ("user_id", U); ("log_date", D); ("energy_level", E);
      ("mood_score", Mo); ("stress_level", S); ("hours_slept", H);
      ("notes", N) ].

Section Frames.
Context `{np : Numpy}.

Definition lagged_frame (ix : list nat) (U D E Mo S H N : list cell)
    : DataFrame :=
  mkFrame ix
    [ ("user_id", U); ("log_date", D); ("energy_level", E);
      ("mood_score", Mo); ("stress_level", S); ("hours_slept", H);
      ("notes", N);
      ("energy_level_lag1", GroupBy.shift 1 U E);
      ("energy_level_lag7", GroupBy.shift 7 U E);
      ("mood_score_lag1", GroupBy.shift 1 U Mo);
      ("mood_score_lag7", GroupBy.shift 7 U Mo);
      ("stress_level_lag1", GroupBy.shift 1 U S);
      ("stress_level_lag7", GroupBy.shift 7 U S);
      ("hours_slept_lag1", GroupBy.shift 1 U H);
      ("hours_slept_lag7", GroupBy.shift 7 U H);
      ("energy_level_rolling7",
         GroupBy.transform (Series.rolling_mean 7 1) U E);
      ("mood_score_rolling7",
         GroupBy.transform (Series.rolling_mean 7 1) U Mo);
      ("stress_level_rolling7",
         GroupBy.transform (Series.rolling_mean 7 1) U S) ].

Definition featured_frame (ix : list nat) (U D E Mo S H N : list cell)
    : DataFrame :=
  mkFrame ix
    (columns (lagged_frame ix U D E Mo S H N) ++
     [ ("day_of_week", dt_dayofweek <$> D);
       ("day_sin", cyclic np_sin <$> (dt_dayofweek <$> D));
       ("day_cos", cyclic np_cos <$> (dt_dayofweek <$> D)) ]).

End Frames.

(** A date column: dates and missing values only. *)
Definition date_like (c : cell) : Prop :=
  match c with Date _ | NA => True | _ => False end.

(** The rows of [xs] at the positions [order]. *)
Definition pick (order : list nat) (xs : list cell) : list cell :=
  (λ p, xs !!! p) <$> order.

(** The order in which [sort_values] leaves the rows of a query result. *)
Definition sort_order (rows : list energy_log) : list nat :=
  merge_sort
    (DataFrame.rows_le
       [of_str ∘ user_id <$> rows; of_date ∘ log_date <$> rows])
    (seq 0 (length rows)).

(** The engineered frame of a query result, before [dropna]. *)
Definition sorted_features `{np : Numpy} (rows : list energy_log)
    : DataFrame :=
  let o := sort_order rows in
  featured_frame o
    (pick o (of_str ∘ user_id <$> rows))
    (pick o (of_date ∘ log_date <$> rows))
    (pick o (of_num ∘ energy_level <$> rows))
    (pick o (of_num ∘ mood_score <$> rows))
    (pick o (of_num ∘ stress_level <$> rows))
    (pick o (of_num ∘ hours_slept <$> rows))
    (pick o (of_str ∘ notes <$> rows)).

(** ** A small library to run the model on

    A deterministic stand-in for numpy's generator and for scikit-learn,
    used to evaluate the script on concrete stores. The properties below
    hold for every library; these instances only show that their
    hypotheses can be met. *)

Module Fixture.

Definition lcg (g : Z) : Z := ((g * 75 + 74) `mod` 65537)%Z.

Definition numpy : Numpy := {|
  RandomState := Z;
  np_random_seed := λ s, s;
  np_random_normal := λ mu sigma g,
    ((mu + sigma * (inject_Z (g `mod` 7 - 3) / 2))%Q, lcg g);
  np_random_uniform := λ lo hi g,
    ((lo + (hi - lo) * (inject_Z (g `mod` 8) / 8))%Q, lcg g);
  np_random_choice := λ l g,
    (default 0%Z (l !! Z.to_nat (g `mod` Z.of_nat (length l))), lcg g);
  np_pi := 3.141592653589793%Q;
  np_sin := λ x, (x - x * x * x / 6)%Q;
  np_cos := λ x, (1 - x * x / 2)%Q;
|}.

Definition count_equal (a b : list Z) : nat :=
  length (filter (λ p : Z * Z, p.1 = p.2) (zip a b)).

Definition sklearn : @Sklearn numpy := {|
  train_test_split := λ X y,
    let k := length X * 4 / 5 in
    inr (take k X, drop k X, take k y, drop k y);
  tabpfn_model := list Z;
  tabpfn_fit := λ _ y, inr y;
  tabpfn_predict := λ m X, inr (replicate (length X) (default 0%Z (head m)));
  accuracy_score := λ a b,
    inr (float_of_nat (count_equal a b) / float_of_nat (length a))%float;
  report := unit;
  classification_report := λ _ _, inr ();
|}.

Definition cross_val_score (clf : @classifier numpy sklearn) (X : matrix)
    (y : list Z) (g : Z) : (exn + list float) * Z :=
  (inr [0.5; 0.75; 0.5; 0.75; 0.5]%float, lcg g).

(** Thirty daily logs of one user, every column filled. *)
Definition log (i : nat) : energy_log :=
  let z := Z.of_nat i in
  mkLog (Some "ada") (Some (19723 + z)%Z)
        (Some (inject_Z (1 + z `mod` 5)))
        (Some (inject_Z (1 + (2 * z) `mod` 5)))
        (Some (inject_Z (1 + (3 * z) `mod` 5)))
        (Some (inject_Z (6 + z `mod` 3)))
        (Some "ok").

Definition exam : academic_event :=
  mkEvent (Some "ada") (Some 19750%Z) (Some "exam") (Some 1.5%Q).

Definition store : database :=
  mkDb ["academic_events"; "energy_logs"] (log <$> seq 0 30) [exam] 19753.

Definition s0 : @state numpy sklearn :=
  @mkState numpy sklearn [] (2024%Z : @RandomState numpy).

(** Python installed with every package but tabpfn, a store at the
    default path. *)
Definition without_tabpfn : world :=
  mkWorld true true false ∅ {[ DEFAULT_DUCKDB_PATH := store ]}.

(** The same, with tabpfn. *)
Definition with_tabpfn : world :=
  mkWorld true true true ∅ {[ DEFAULT_DUCKDB_PATH := store ]}.

(** Every package installed, no store. *)
Definition no_store : world := mkWorld true true true ∅ ∅.

(** The same logs, the note of day 10 missing. *)
Definition log_quiet (i : nat) : energy_log :=
  let r := log i in
  mkLog (user_id r) (log_date r) (energy_level r) (mood_score r)
        (stress_level r) (hours_slept r)
        (if decide (i = 10) then None else notes r).

Definition store_quiet : database :=
  mkDb ["academic_events"; "energy_logs"] (log_quiet <$> seq 0 30) [exam] 19753.

End Fixture.

(** The frame [generate_synthetic_data] builds from its four numeric
    columns, before [dropna]. *)
Definition synthetic_table `{np : Numpy} (n : nat) (E Mo S H : list cell)
    : DataFrame :=
  let dow := dayofweek <$> date_range n in
  mkFrame (seq 0 n)
    [ ("user_id", replicate n (Str "synthetic_user"));
      ("log_date", Date <$> date_range n);
      ("energy_level", E); ("mood_score", Mo); ("stress_level", S);
      ("hours_slept", H);
      ("notes", replicate n NA);
      ("energy_level_lag1", Series.shift 1 E);
      ("energy_level_lag7", Series.shift 7 E);
      ("mood_score_lag1", Series.shift 1 Mo);
      ("mood_score_lag7", Series.shift 7 Mo);
      ("stress_level_lag1", Series.shift 1 S);
      ("stress_level_lag7", Series.shift 7 S);
      ("hours_slept_lag1", Series.shift 1 H);
      ("hours_slept_lag7", Series.shift 7 H);
      ("energy_level_rolling7", Series.rolling_mean 7 1 E);
      ("mood_score_rolling7", Series.rolling_mean 7 1 Mo);
      ("stress_level_rolling7", Series.rolling_mean 7 1 S);
      ("day_sin", (cyclic np_sin ∘ num_of_Z) <$> dow);
      ("day_cos", (cyclic np_cos ∘ num_of_Z) <$> dow) ].

(** A numeric column: no missing value. *)
Definition numeric (xs : list cell) : Prop :=
  Forall (λ c, ∃ q, c = Num q) xs.

(** ** Views of a trace *)

Section Views.
Context `{np : Numpy} `{sk : !Sklearn}.

(** The statements sent to the store, in order. *)
Definition queries (t : list event) : list sql :=
  omap (λ e, match e with Execute q => Some q | _ => None end) t.

(** The lines printed, in order. *)
Definition printed (t : list event) : list fstring :=
  omap (λ e, match e with Print line => Some line | _ => None end) t.

(** The library functions called, in order. *)
Inductive call : Type := Split | Fit | Predict | Accuracy | CrossVal | Report.

Definition library_calls (t : list event) : list call :=
  omap (λ e, match e with
             | CallSplit _ => Some Split
             | CallFit _ _ => Some Fit
             | CallPredict _ _ => Some Predict
             | CallAccuracy => Some Accuracy
             | CallCrossVal _ => Some CrossVal
             | CallReport => Some Report
             | _ => None
             end) t.

(** The classifiers on which [fit] was called. *)
Definition fitted (t : list event) : list classifier :=
  omap (λ e, match e with CallFit clf _ => Some clf | _ => None end) t.

(** A computation only adds events that satisfy [P] to the trace. *)
Definition emits_only (P : event → Prop) {A} (m : M A) : Prop :=
  ∀ s, ∃ t, trace (run m s).2 = trace s ++ t ∧ Forall P t.

(** The path [main] is given: [DUCKDB_PATH] of the environment, or the
    default. *)
Definition path_of (w : world) : string :=
  default DEFAULT_DUCKDB_PATH (environ w !! "DUCKDB_PATH").

(** The store with another events table and another current date. *)
Definition with_events (evs : list academic_event) (today : Z)
    (db : database) : database :=
  mkDb (tables db) (energy_logs db) evs today.

End Views.

(** The two lines printed when tabpfn cannot be imported. *)
Definition tabpfn_warning `{np : Numpy} `{sk : !Sklearn} : list event :=
  [Print [Lit "Warning: tabpfn not installed. Using mock classifier for demo."];
   Print [Lit "Install with: pip install tabpfn"]].

(** The library calls of a complete evaluation, in order. *)
Definition all_calls : list call :=
  [Split; Fit; Predict; Accuracy; CrossVal; Report].

(** The classifier the evaluator starts from, and the classifiers of the
    same class. *)
Definition initial_classifier `{np : Numpy} `{sk : !Sklearn} (tab : bool)
    : classifier :=
  if tab then TabPFNClassifier None else MockTabPFNClassifier None.

Definition same_class `{np : Numpy} `{sk : !Sklearn} (tab : bool)
    (clf : classifier) : Prop :=
  match clf with
  | TabPFNClassifier _ => tab = true
  | MockTabPFNClassifier _ => tab = false
  end.

(** A line that is not one of the two lines of the startup warning. *)
Definition after_startup (line : fstring) : Prop :=
  line ≠ [Lit "Warning: tabpfn not installed. Using mock classifier for demo."]
  ∧ line ≠ [Lit "Install with: pip install tabpfn"].

(** What [main] may add to the trace when the flag [TABPFN_AVAILABLE] is
    [tab]: any line but the startup warning, the connection, the two
    statements of [load_energy_data], and library calls on classifiers of
    the class the flag selects. *)
Definition main_event `{np : Numpy} `{sk : !Sklearn} (tab : bool)
    (e : event) : Prop :=
  match e with
  | Print line => after_startup line
  | Connect _ | Close => True
  | Execute q => q = SHOW_TABLES ∨ q = SELECT_energy_logs
  | CallSplit _ | CallAccuracy | CallReport => True
  | CallFit clf _ => clf = initial_classifier tab
  | CallPredict clf _ | CallCrossVal clf => same_class tab clf
  end.

(** A computation can return [a]. *)
Definition returns `{np : Numpy} `{sk : !Sklearn} {A} (m : M A) (a : A)
    : Prop :=
  ∃ s s', run m s = (Ok a, s').

(** ** The two halves of [main]

    [main] is one sequence of statements. To reason about it, the part up
    to the check of the prepared features and the part from the evaluation
    on are named; [main_phases] below shows that [main] is the first
    followed by the second. *)

Section Phases.
Context `{np : Numpy} `{sk : !Sklearn}.
Variable cross_val_score :
  classifier → matrix → list Z → RandomState →
  (exn + list float) * RandomState.

(** From the banner to [if len(X) == 0: ... sys.exit(1)]. *)
Definition data_phase (DUCKDB_PATH : string)
    (filesystem : gmap string database) : M (matrix * list Z) :=
  print [Lit (str_mul "=" 60)];;
  print [Lit "TabPFN 2.5 POC for Stride - Energy Prediction"];;
  print [Lit (str_mul "=" 60)];;
  print [];;
  let db_path := DUCKDB_PATH in
  '(df, use_synthetic) ←
    match filesystem !! db_path with
    | Some conn =>
        print [Lit "Connecting to DuckDB: "; FPath db_path];;
        emit (Connect db_path);;
        df ← load_energy_data conn;
        emit Close;;
        if DataFrame.empty df || bool_decide (DataFrame.len df < MIN_SAMPLES)
        then
          print [Lit nl;
                 Lit "Insufficient real data. Falling back to synthetic data."];;
          mret (df, true)
        else mret (df, false)
    | None =>
        print [Lit "Database not found: "; FPath db_path];;
        print [Lit "Using synthetic data for demonstration."];;
        mret (empty_frame, true)
    end;
  df ← (if use_synthetic : bool then
          df ← generate_synthetic_data 200;
          print [Lit nl; Lit "Generated "; FNat (DataFrame.len df);
                 Lit " synthetic energy logs"];;
          mret df
        else mret df);
  '(X, y) ← prepare_features df;
  (if decide (length X = 0) then
     print [Lit nl; Lit "Error: Could not prepare features. Exiting."];;
     sys_exit 1
   else mret ());;
  mret (X, y).

(** From the line "RESULTS" to [return results]. *)
Definition report_phase (TABPFN_AVAILABLE : bool)
    (results : gmap string pyval) : M (gmap string pyval) :=
  print [Lit nl; Lit (str_mul "=" 40)];;
  print [Lit "RESULTS"];;
  print [Lit (str_mul "=" 40)];;
  samples ← item results "samples";
  print (Lit "Samples:     " :: fmt samples);;
  features ← item results "features";
  print (Lit "Features:    " :: fmt features);;
  classes ← item results "classes";
  print (Lit "Classes:     " :: fmt classes);;
  print [];;
  accuracy ← item results "accuracy";
  print (Lit "Test Accuracy:  " :: fmt accuracy);;
  cv_mean ← item results "cv_mean";
  cv_std ← item results "cv_std";
  print ([Lit "CV Accuracy:    "] ++ fmt cv_mean ++ [Lit " (+/- "]
         ++ fmt cv_std ++ [Lit ")"]);;
  print [];;
  cv_mean ← item results "cv_mean";
  verdict ← interpret cv_mean;
  print [Lit "Verdict: "; Lit verdict];;
  print [];;
  print [Lit "Next steps:"];;
  (if TABPFN_AVAILABLE then
     print [Lit "1. Collect more real energy data (target: 100+ samples)"];;
     print [Lit "2. Add academic event proximity features"];;
     print [Lit "3. Test on goal feasibility prediction"]
   else
     print [Lit "1. Install TabPFN: pip install tabpfn"];;
     print [Lit "2. Re-run with real classifier"];;
     print [Lit "3. Compare with XGBoost baseline"]);;
  mret results.

(** From the line "Evaluating TabPFN Classifier" on. *)
Definition eval_phase (TABPFN_AVAILABLE : bool) (X : matrix) (y : list Z)
    : M (gmap string pyval) :=
  print [Lit nl; Lit (str_mul "-" 40)];;
  print [Lit "Evaluating TabPFN Classifier"];;
  print [Lit (str_mul "-" 40)];;
  results ← evaluate_tabpfn cross_val_score TABPFN_AVAILABLE X y;
  (if decide ("error" ∈ dom results) then
     err ← item results "error";
     print ([Lit nl; Lit "Error: "] ++ fmt err);;
     sys_exit 1
   else mret ());;
  report_phase TABPFN_AVAILABLE results.

End Phases.

(** A line that reports an error: a blank line, then a text that starts
    with "Error: ". *)
Definition error_line (line : fstring) : Prop :=
  ∃ msg rest, line = Lit nl :: Lit msg :: rest ∧
              String.prefix "Error: " msg = true.

(** The world with tabpfn installed. *)
Definition install_tabpfn (w : world) : world :=
  mkWorld (duckdb_installed w) (sklearn_installed w) true
          (environ w) (filesystem w).

(** ** What a complete evaluation returns and prints *)

Section Report.
Context `{np : Numpy} `{sk : !Sklearn}.

(** The dictionary of a complete evaluation. *)
Definition evaluation (X : matrix) (y : list Z) (acc : float)
    (scores : list float) (rep : report) : gmap string pyval :=
  {[ "samples" := PInt (length X);
     "features" := PInt (n_features X);
     "classes" := PInts (np_unique y);
     "accuracy" := PFloat acc;
     "cv_mean" := PFloat (np_mean scores);
     "cv_std" := PFloat (np_std scores);
     "classification_report" := PReport rep ]}.

(** The lines of the report, from "RESULTS" to the next steps. *)
Definition report_lines (tab : bool) (X : matrix) (y : list Z) (acc : float)
    (scores : list float) : list event :=
  [ Print [Lit nl; Lit (str_mul "=" 40)];
    Print [Lit "RESULTS"];
    Print [Lit (str_mul "=" 40)];
    Print [Lit "Samples:     "; FNat (length X)];
    Print [Lit "Features:    "; FNat (n_features X)];
    Print [Lit "Classes:     "; FIntList (np_unique y)];
    Print [];
    Print [Lit "Test Accuracy:  "; FPct acc];
    Print [Lit "CV Accuracy:    "; FPct (np_mean scores); Lit " (+/- ";
           FPct (np_std scores); Lit ")"];
    Print [];
    Print [Lit "Verdict: "; Lit (verdict_of (np_mean scores))];
    Print [];
    Print [Lit "Next steps:"] ] ++
  (if tab then
     [ Print [Lit "1. Collect more real energy data (target: 100+ samples)"];
       Print [Lit "2. Add academic event proximity features"];
       Print [Lit "3. Test on goal feasibility prediction"] ]
   else
     [ Print [Lit "1. Install TabPFN: pip install tabpfn"];
       Print [Lit "2. Re-run with real classifier"];
       Print [Lit "3. Compare with XGBoost baseline"] ]).

(** A computation never ends in [sys.exit]. *)
Definition never_exits {A} (m : M A) : Prop :=
  ∀ s c, (run m s).1 ≠ SysExit c.

(** A computation ends in [sys.exit] only with status 1 and right after
    an event that satisfies [E]. *)
Definition exits_after (E : event → Prop) {A} (m : M A) : Prop :=
  ∀ s c, (run m s).1 = SysExit c →
    c = 1%Z ∧ ∃ e, last (trace (run m s).2) = Some e ∧ E e.

(** The outcome of a computation does not depend on the state it starts
    from. *)
Definition stateless {A} (m : M A) : Prop :=
  ∃ o, ∀ s, (run m s).1 = o.

End Report.

(** A pure result is a value or an exception. *)
Definition pure {A} (o : outcome A) : Prop := ∀ c, o ≠ SysExit c.

(** The event of printing an error line. *)
Definition error_event `{np : Numpy} `{sk : !Sklearn} (e : event) : Prop :=
  ∃ line, e = Print line ∧ error_line line.

(** What the script may add to the trace: the events of [main], and any
    printed line (the startup warning and the import errors included). *)
Definition script_event `{np : Numpy} `{sk : !Sklearn} (tab : bool)
    (e : event) : Prop :=
  match e with
  | Print _ => True
  | _ => main_event tab e
  end.

(** What the first half of [main] may add to the trace: lines, the
    connection and statements, no library call. *)
Definition data_event `{np : Numpy} `{sk : !Sklearn} (e : event) : Prop :=
  match e with
  | Print _ | Connect _ | Close | Execute _ => True
  | _ => False
  end.

(** The library calls of an evaluation with the mock return: the split
    (with a training part that has a class), the accuracy score, the
    report, and the cross-validation of the fitted mock. *)
Definition library_returns `{np : Numpy} `{sk : !Sklearn}
    (cross_val_score :
       classifier → matrix → list Z → RandomState →
       (exn + list float) * RandomState)
    (X : matrix) (y : list Z) : Prop :=
  ∃ X_train X_test y_train y_test,
    train_test_split X y = inr (X_train, X_test, y_train, y_test) ∧
    y_train ≠ [] ∧
    (∀ y_pred, ∃ acc, accuracy_score y_test y_pred = inr acc) ∧
    (∀ y_pred, ∃ rep, classification_report y_test y_pred = inr rep) ∧
    (∀ g, ∃ scores,
       (cross_val_score (MockTabPFNClassifier (Some (np_unique y_train)))
          X y g).1 = inr scores).

(** scikit-learn's [cross_val_score] clones the estimator it is given
    through its [get_params]. [MockTabPFNClassifier] (lines 57-74 of the
    script) defines [__init__], [fit], [predict] and [predict_proba] only,
    so on the mock the call raises; on the real classifier it returns the
    scores of the stand-in library. *)
Definition cross_val_score_clone
    (clf : @classifier Fixture.numpy Fixture.sklearn) (X : matrix)
    (y : list Z) (g : Z) : (exn + list float) * Z :=
  match clf with
  | MockTabPFNClassifier _ =>
      (inl (TypeError "Cannot clone object: no get_params"), g)
  | TabPFNClassifier _ => Fixture.cross_val_score clf X y g
  end.

(** The exception a computation ended with, if any. *)
Definition raised {A} (o : outcome A) : option exn :=
  match o with Raise e => Some e | _ => None end.

(** * Properties *)

(** *** Series *)

Lemma shift_length k xs : length (Series.shift k xs) = length xs.
Proof.
  unfold Series.shift. rewrite length_take, length_app, length_replicate. lia.
Qed.

Lemma shift_lookup_lt k xs i :
  i < k → i < length xs → Series.shift k xs !! i = Some NA.
Proof.
  intros Hk Hi. unfold Series.shift.
  rewrite lookup_take_lt by done.
  rewrite lookup_app_l by (rewrite length_replicate; done).
  by apply lookup_replicate_2.
Qed.

Lemma shift_lookup_ge k xs i :
  k ≤ i → i < length xs → Series.shift k xs !! i = xs !! (i - k).
Proof.
  intros Hk Hi. unfold Series.shift.
  rewrite lookup_take_lt by done.
  rewrite lookup_app_r by (rewrite length_replicate; done).
  by rewrite length_replicate.
Qed.

Lemma rolling_mean_length w m xs :
  length (Series.rolling_mean w m xs) = length xs.
Proof. unfold Series.rolling_mean. by rewrite length_imap. Qed.

Lemma rolling_mean_lookup w m xs i :
  i < length xs →
  Series.rolling_mean w m xs !! i = Some (Series.window_mean m (Series.window w i xs)).
Proof.
  intros Hi. unfold Series.rolling_mean. rewrite list_lookup_imap.
  destruct (lookup_lt_is_Some_2 xs i Hi) as [x ->]. done.
Qed.

Lemma window_early w i xs : i < w → Series.window w i xs = take (S i) xs.
Proof.
  intros Hi. unfold Series.window. replace (S i - w) with 0 by lia. done.
Qed.

(** *** Groups *)

Lemma filter_fmap_list {A B} (f : A → B) (P : B → Prop) `{∀ x, Decision (P x)}
    (l : list A) :
  filter P (f <$> l) = f <$> filter (P ∘ f) l.
Proof.
  induction l as [|a l IH]; [done|].
  rewrite fmap_cons, !filter_cons, IH. simpl.
  by destruct (decide (P (f a))).
Qed.

Lemma positions_cons k' keys k :
  positions (k' :: keys) k =
  (if decide (k' = k) then [0] else []) ++ (S <$> positions keys k).
Proof.
  unfold positions. simpl length. rewrite <- cons_seq, <- fmap_S_seq.
  rewrite filter_cons. simpl.
  rewrite filter_fmap_list.
  assert (filter ((λ p, (k' :: keys) !! p = Some k) ∘ S) (seq 0 (length keys))
          = filter (λ p, keys !! p = Some k) (seq 0 (length keys))) as ->.
  { apply list_filter_iff. intros p. done. }
  destruct (decide (Some k' = Some k)) as [E|E]; destruct (decide (k' = k)); simplify_eq; done.
Qed.

Lemma rank_succ k' keys p k :
  GroupBy.rank (k' :: keys) (S p) k =
  (if decide (k' = k) then 1 else 0) + GroupBy.rank keys p k.
Proof.
  unfold GroupBy.rank. simpl. rewrite filter_cons.
  destruct (decide (k' = k)); done.
Qed.

Lemma members_cons k' keys x xs k :
  GroupBy.members (k' :: keys) (x :: xs) k =
  (if decide (k' = k) then [x] else []) ++ GroupBy.members keys xs k.
Proof.
  unfold GroupBy.members. simpl. rewrite filter_cons. simpl.
  destruct (decide (k' = k)); done.
Qed.

Lemma positions_lookup keys k i p :
  positions keys k !! i = Some p →
  keys !! p = Some k ∧ GroupBy.rank keys p k = i.
Proof.
  revert i p. induction keys as [|k' keys IH]; intros i p.
  - done.
  - rewrite positions_cons. destruct (decide (k' = k)) as [->|Hne]; simpl.
    + destruct i as [|i]; simpl.
      * intros [= <-]. done.
      * rewrite list_lookup_fmap. destruct (positions keys k !! i) as [q|] eqn:E; [|done].
        intros [= <-]. destruct (IH _ _ E) as [? ?]. split; [done|].
        rewrite rank_succ. rewrite decide_True by done. lia.
    + rewrite list_lookup_fmap. destruct (positions keys k !! i) as [q|] eqn:E; [|done].
      intros [= <-]. destruct (IH _ _ E) as [? ?]. split; [done|].
      rewrite rank_succ. rewrite decide_False by done. done.
Qed.

Lemma positions_rank keys k p :
  keys !! p = Some k → positions keys k !! GroupBy.rank keys p k = Some p.
Proof.
  revert p. induction keys as [|k' keys IH]; intros p; [done|].
  rewrite positions_cons. destruct p as [|p]; simpl.
  - intros [= ->]. rewrite decide_True by done. done.
  - intros Hp. rewrite rank_succ. destruct (decide (k' = k)); simpl;
      rewrite list_lookup_fmap, (IH _ Hp); done.
Qed.

Lemma members_lookup keys xs k i p :
  length xs = length keys →
  positions keys k !! i = Some p →
  GroupBy.members keys xs k !! i = xs !! p.
Proof.
  revert xs i p. induction keys as [|k' keys IH]; intros xs i p Hlen; [done|].
  destruct xs as [|x xs]; [done|]. simpl in Hlen.
  rewrite positions_cons, members_cons. destruct (decide (k' = k)); simpl.
  - destruct i as [|i]; simpl; [by intros [= <-]|].
    rewrite list_lookup_fmap. destruct (positions keys k !! i) as [q|] eqn:E; [|done].
    intros [= <-]. simpl. apply IH; [lia|done].
  - rewrite list_lookup_fmap. destruct (positions keys k !! i) as [q|] eqn:E; [|done].
    intros [= <-]. simpl. apply IH; [lia|done].
Qed.

Lemma members_length keys xs k :
  length xs = length keys →
  length (GroupBy.members keys xs k) = length (positions keys k).
Proof.
  revert xs. induction keys as [|k' keys IH]; intros xs Hlen.
  - destruct xs; done.
  - destruct xs as [|x xs]; [done|]. simpl in Hlen.
    rewrite positions_cons, members_cons, !length_app, length_fmap.
    rewrite IH by lia. destruct (decide (k' = k)); done.
Qed.

Lemma positions_increasing keys k i j p q :
  i < j → positions keys k !! i = Some p → positions keys k !! j = Some q → p < q.
Proof.
  revert i j p q. induction keys as [|k' keys IH]; intros i j p q Hij; [done|].
  rewrite positions_cons. destruct (decide (k' = k)); simpl.
  - destruct j as [|j]; [lia|]. simpl. rewrite list_lookup_fmap.
    destruct (positions keys k !! j) as [q'|] eqn:Ej; [|done].
    destruct i as [|i]; simpl.
    + intros [= <-] [= <-]. lia.
    + rewrite list_lookup_fmap. destruct (positions keys k !! i) as [p'|] eqn:Ei; [|done].
      intros [= <-] [= <-]. assert (p' < q') by (eapply IH; [|done..]; lia). lia.
  - rewrite !list_lookup_fmap.
    destruct (positions keys k !! j) as [q'|] eqn:Ej; [|by intros ? [=]].
    destruct (positions keys k !! i) as [p'|] eqn:Ei; [|done].
    intros [= <-] [= <-]. assert (p' < q') by (eapply IH; done). lia.
Qed.

Lemma transform_length f keys xs :
  length (GroupBy.transform f keys xs) = length keys.
Proof. unfold GroupBy.transform. by rewrite length_imap. Qed.

Lemma transform_lookup f keys xs k p :
  keys !! p = Some k → k ≠ NA →
  GroupBy.transform f keys xs !! p =
  Some (default NA (f (GroupBy.members keys xs k) !! GroupBy.rank keys p k)).
Proof.
  intros Hp Hk. unfold GroupBy.transform. rewrite list_lookup_imap, Hp. simpl.
  destruct k; done.
Qed.
(** *** The sort order *)

Lemma cell_le_refl a : cell_le a a.
Proof. destruct a; simpl; [lia|apply Qle_refl|done|lia]. Qed.

Lemma cell_le_trans a b c : cell_le a b → cell_le b c → cell_le a c.
Proof.
  destruct a, b, c; simpl; try lia.
  - apply Qle_trans.
  - intros; etrans; done.
Qed.

Lemma cell_le_total a b : cell_le a b ∨ cell_le b a.
Proof.
  destruct a, b; simpl; try lia.
  - destruct (Qlt_le_dec q q0) as [?%Qlt_le_weak|?]; auto.
  - apply (total String.le).
Qed.

Lemma lex_le_trans (keys : list (list cell)) p q r :
  DataFrame.rows_le keys p q → DataFrame.rows_le keys q r →
  DataFrame.rows_le keys p r.
Proof.
  unfold DataFrame.rows_le, DataFrame.row_key.
  induction keys as [|xs keys IH]; [done|]. simpl.
  intros [H1|[H1 H1']] [H2|[H2 H2']].
  - left. intros H3. apply H1. eapply cell_le_trans; [|done].
    destruct (cell_le_total (xs !!! q) (xs !!! r)); done.
  - left. intros H3. apply H1. eapply cell_le_trans; done.
  - left. intros H3. apply H2. eapply cell_le_trans; done.
  - right. split; [eapply cell_le_trans; done|]. by apply IH.
Qed.

Lemma lex_le_total (keys : list (list cell)) p q :
  DataFrame.rows_le keys p q ∨ DataFrame.rows_le keys q p.
Proof.
  unfold DataFrame.rows_le, DataFrame.row_key.
  induction keys as [|xs keys IH]; [by left|]. simpl.
  destruct (decide (cell_le (xs !!! q) (xs !!! p))) as [H1|H1]; [|by left; left].
  destruct (decide (cell_le (xs !!! p) (xs !!! q))) as [H2|H2]; [|by right; left].
  destruct IH; [left|right]; right; done.
Qed.

Lemma StronglySorted_lookup {A} (R : relation A) l i j x y :
  StronglySorted R l → i < j → l !! i = Some x → l !! j = Some y → R x y.
Proof.
  intros Hs. revert i j. induction Hs as [|a l Hs IH Hall]; intros i j Hij Hi Hj; [done|].
  destruct j as [|j]; [lia|]. simpl in Hj. destruct i as [|i]; simpl in Hi.
  - simplify_eq. rewrite Forall_forall in Hall. apply Hall.
    by eapply list_elem_of_lookup_2.
  - eapply IH; [|done..]. lia.
Qed.

Lemma sort_positions_sorted keys n :
  StronglySorted (DataFrame.rows_le keys)
    (merge_sort (DataFrame.rows_le keys) (seq 0 n)).
Proof.
  apply StronglySorted_merge_sort.
  - intros p q r. apply lex_le_trans.
  - intros p q. apply lex_le_total.
Qed.

(** *** Masks and [dropna] *)

Lemma select_elem {A} (mask : list bool) (xs : list A) x :
  x ∈ DataFrame.select mask xs →
  ∃ p, xs !! p = Some x ∧ mask !! p = Some true.
Proof.
  revert xs. induction mask as [|b mask IH]; intros [|y xs]; simpl;
    try by intros ?%elem_of_nil.
  destruct b.
  - intros [->|Hx]%elem_of_cons; [by exists 0|].
    destruct (IH _ Hx) as (p & ? & ?). by exists (S p).
  - intros Hx. destruct (IH _ Hx) as (p & ? & ?). by exists (S p).
Qed.

Lemma select_dropped {A} (mask : list bool) (xs : list A) p x :
  NoDup xs → xs !! p = Some x → mask !! p = Some false →
  x ∉ DataFrame.select mask xs.
Proof.
  intros Hnd Hx Hm (p' & Hx' & Hm')%select_elem.
  assert (p = p') as <- by (eapply NoDup_lookup; done). congruence.
Qed.

Lemma lookup_col_elem name cols xs :
  DataFrame.lookup_col name cols = Some xs → (name, xs) ∈ cols.
Proof.
  induction cols as [|[n ys] cols IH]; simpl; [done|].
  destruct (decide (n = name)) as [->|].
  - intros [= ->]. apply elem_of_cons. by left.
  - intros H. apply elem_of_cons. right. by apply IH.
Qed.

Lemma row_has_na_intro df col p :
  value df col p = Some NA → DataFrame.row_has_na df p = true.
Proof.
  unfold value, DataFrame.row_has_na.
  destruct (DataFrame.lookup_col col (columns df)) as [xs|] eqn:E; [|done].
  simpl. intros Hp. apply existsb_exists. exists (col, xs). split.
  - apply list_elem_of_In. by apply lookup_col_elem.
  - simpl. by rewrite Hp.
Qed.

Lemma dropna_absent df col p l :
  NoDup (index df) → index df !! p = Some l →
  value df col p = Some NA →
  l ∉ index (DataFrame.dropna df).
Proof.
  intros Hnd Hl Hna. unfold DataFrame.dropna. simpl.
  eapply select_dropped; [done..|].
  rewrite list_lookup_fmap, lookup_seq_lt.
  - simpl. by rewrite (row_has_na_intro _ _ _ Hna).
  - unfold DataFrame.len. by eapply lookup_lt_Some.
Qed.

Section EnergyFeatures.
Context `{np : Numpy} `{sk : !Sklearn}.

(** *** The engineered frame of a query result *)

Lemma lag_rolling_raw {A} (g : DataFrame → outcome A) ix U D E Mo S H N :
  (df ← lag_features (raw_frame ix U D E Mo S H N);
   df ← rolling_features df; g df)
  = g (lagged_frame ix U D E Mo S H N).
Proof. reflexivity. Qed.

Lemma to_datetime_id D : Forall date_like D → mapM to_datetime D = Ok D.
Proof.
  induction 1 as [|c D Hc _ IH]; [done|].
  simpl. destruct c; try done; simpl; rewrite IH; done.
Qed.

Lemma cyclic_lagged ix U D E Mo S H N :
  Forall date_like D →
  cyclic_features (lagged_frame ix U D E Mo S H N)
  = Ok (featured_frame ix U D E Mo S H N).
Proof.
  intros HD. unfold cyclic_features.
  change (DataFrame.getitem (lagged_frame ix U D E Mo S H N) "log_date")
    with (Ok D).
  simpl. rewrite (to_datetime_id D HD). reflexivity.
Qed.

Lemma sort_order_perm rows : sort_order rows ≡ₚ seq 0 (length rows).
Proof. apply merge_sort_Permutation. Qed.

Lemma sort_order_bound rows p : p ∈ sort_order rows → p < length rows.
Proof.
  rewrite sort_order_perm. intros Hp%list_elem_of_In%in_seq. lia.
Qed.

Lemma sort_order_labels rows :
  (λ p, seq 0 (length rows) !!! p) <$> sort_order rows = sort_order rows.
Proof.
  rewrite <- (list_fmap_id (sort_order rows)) at 2.
  apply list_fmap_ext. intros i p Hp. 
  rewrite lookup_total_seq_lt; [done|].
  apply sort_order_bound. by eapply list_elem_of_lookup_2.
Qed.

Lemma pick_date_like o D : Forall date_like D → Forall date_like (pick o D).
Proof.
  intros HD. unfold pick. apply Forall_fmap, Forall_forall. intros p _. simpl.
  rewrite list_lookup_total_alt. destruct (D !! p) as [c|] eqn:E; simpl; [|done].
  rewrite Forall_forall in HD. apply HD. by eapply list_elem_of_lookup_2.
Qed.

Lemma build_features_eq rows :
  build_features (energy_frame rows) = Ok (sorted_features rows).
Proof.
  unfold build_features.
  change (DataFrame.sort_values (energy_frame rows) ["user_id"; "log_date"])
    with (Ok (DataFrame.take_rows 
            (merge_sort (DataFrame.rows_le
               [of_str ∘ user_id <$> rows; of_date ∘ log_date <$> rows])
               (seq 0 (length (seq 0 (length rows)))))
            (energy_frame rows))).
  rewrite length_seq. fold (sort_order rows).
  change (DataFrame.take_rows (sort_order rows) (energy_frame rows))
    with (raw_frame ((λ p, seq 0 (length rows) !!! p) <$> sort_order rows)
            (pick (sort_order rows) (of_str ∘ user_id <$> rows))
            (pick (sort_order rows) (of_date ∘ log_date <$> rows))
            (pick (sort_order rows) (of_num ∘ energy_level <$> rows))
            (pick (sort_order rows) (of_num ∘ mood_score <$> rows))
            (pick (sort_order rows) (of_num ∘ stress_level <$> rows))
            (pick (sort_order rows) (of_num ∘ hours_slept <$> rows))
            (pick (sort_order rows) (of_str ∘ notes <$> rows))).
  rewrite sort_order_labels.
  change (Ok ?df ≫= ?f) with (f df). cbv beta.
  rewrite lag_rolling_raw. apply cyclic_lagged, pick_date_like.
  apply Forall_fmap, Forall_forall. intros r _. simpl. by destruct (log_date r).
Qed.

(** *** Lags inside a group *)

Lemma group_shift_undefined k U X u i p :
  length X = length U →
  positions U (Str u) !! i = Some p → i < k →
  GroupBy.shift k U X !! p = Some NA.
Proof.
  intros Hlen Hp Hik. destruct (positions_lookup _ _ _ _ Hp) as [HU Hrank].
  unfold GroupBy.shift. rewrite (transform_lookup _ _ _ _ _ HU) by done.
  rewrite Hrank, shift_lookup_lt; [done..|].
  rewrite members_length by done. by eapply lookup_lt_Some.
Qed.

Lemma group_shift_defined k U X u i p q :
  length X = length U →
  positions U (Str u) !! i = Some p → k ≤ i →
  positions U (Str u) !! (i - k) = Some q →
  ∃ v, X !! q = Some v ∧ GroupBy.shift k U X !! p = Some v.
Proof.
  intros Hlen Hp Hki Hq. destruct (positions_lookup _ _ _ _ Hp) as [HU Hrank].
  destruct (positions_lookup _ _ _ _ Hq) as [HUq _].
  destruct (lookup_lt_is_Some_2 X q) as [v Hv].
  { rewrite Hlen. by eapply lookup_lt_Some. }
  exists v. split; [done|].
  unfold GroupBy.shift. rewrite (transform_lookup _ _ _ _ _ HU) by done.
  rewrite Hrank, shift_lookup_ge; [|done|].
  - by rewrite (members_lookup _ _ _ _ _ Hlen Hq), Hv.
  - rewrite members_length by done. by eapply lookup_lt_Some.
Qed.

Ltac lag_case X HX Hshift :=
  split; intros q Hi Hq;
  [destruct (Hshift 1 X q HX) as (? & ? & ?)
  |destruct (Hshift 7 X q HX) as (? & ? & ?)];
  try done; eexists; split; eassumption.

Section Featured.
Variables (ix : list nat) (U D E Mo S H N : list cell).
Hypothesis HE : length E = length U.
Hypothesis HMo : length Mo = length U.
Hypothesis HS : length S = length U.
Hypothesis HH : length H = length U.
Let feats := featured_frame ix U D E Mo S H N.

Lemma featured_lags u i p col :
  col ∈ lag_columns → entity_rows feats u !! i = Some p →
  (∀ q, 1 ≤ i → entity_rows feats u !! (i - 1) = Some q →
     ∃ v, value feats col q = Some v ∧
          value feats (col +:+ "_lag1") p = Some v) ∧
  (∀ q, 7 ≤ i → entity_rows feats u !! (i - 7) = Some q →
     ∃ v, value feats col q = Some v ∧
          value feats (col +:+ "_lag7") p = Some v).
Proof.
  intros Hcol Hp. change (entity_rows feats u) with (positions U (Str u)) in *.
  unfold lag_columns in Hcol.
  pose proof (λ k X, group_shift_defined k U X u i p) as Hshift.
  repeat (apply elem_of_cons in Hcol as [->|Hcol]);
    [lag_case E HE Hshift | lag_case Mo HMo Hshift
    |lag_case S HS Hshift | lag_case H HH Hshift
    |by apply elem_of_nil in Hcol].
Qed.

Lemma featured_short_history u i p :
  entity_rows feats u !! i = Some p → i < 7 →
  value feats "energy_level_lag7" p = Some NA.
Proof.
  intros Hp Hi. change (entity_rows feats u) with (positions U (Str u)) in *.
  by apply (group_shift_undefined 7 U E u i p).
Qed.

End Featured.

(** *** Chronological order inside a group *)

Lemma sorted_features_chronological rows u i j p q :
  let feats := sorted_features rows in
  i < j →
  entity_rows feats u !! i = Some p → entity_rows feats u !! j = Some q →
  ∃ d1 d2, value feats "log_date" p = Some d1 ∧
           value feats "log_date" q = Some d2 ∧ cell_le d1 d2.
Proof.
  intros feats Hij Hp Hq.
  set (U0 := of_str ∘ user_id <$> rows). set (D0 := of_date ∘ log_date <$> rows).
  change (entity_rows feats u) with (positions (pick (sort_order rows) U0) (Str u)) in *.
  change (value feats "log_date") with (λ p, pick (sort_order rows) D0 !! p).
  pose proof (positions_increasing _ _ _ _ _ _ Hij Hp Hq) as Hpq.
  apply positions_lookup in Hp as [Hp _]. apply positions_lookup in Hq as [Hq _].
  unfold pick in *. rewrite list_lookup_fmap in Hp, Hq. cbv beta. rewrite !list_lookup_fmap.
  destruct (sort_order rows !! p) as [op|] eqn:Eop; [|done].
  destruct (sort_order rows !! q) as [oq|] eqn:Eoq; [|done].
  simpl in *. simplify_eq. do 2 eexists. split; [done|]. split; [done|].
  pose proof (StronglySorted_lookup _ _ _ _ _ _
                (sort_positions_sorted [U0; D0] (length rows)) Hpq Eop Eoq) as Hle.
  unfold DataFrame.rows_le, DataFrame.row_key in Hle. simpl in Hle.
  rewrite Hp, Hq in Hle. destruct Hle as [Hle|[_ [Hle|[Hle _]]]].
  - destruct Hle. apply cell_le_refl.
  - by destruct (cell_le_total (D0 !!! op) (D0 !!! oq)).
  - done.
Qed.

(** *** What [load_energy_data] returns *)

Lemma load_energy_data_run conn s :
  "energy_logs" ∈ tables conn → select_energy_logs conn ≠ [] →
  ∃ line,
  run (load_energy_data conn) s =
  (Ok (DataFrame.dropna (sorted_features (select_energy_logs conn))),
   mkState (trace s ++ [Execute SHOW_TABLES; Execute SELECT_energy_logs;
                        Print line]) (rng s)).
Proof.
  intros Htab Hrows. eexists. unfold load_energy_data.
  destruct (decide ("energy_logs" ∉ tables conn)) as [|_]; [done|].
  assert (DataFrame.empty (energy_frame (select_energy_logs conn)) = false) as Hne.
  { unfold DataFrame.empty. simpl. destruct (select_energy_logs conn); done. }
  simpl. rewrite Hne. simpl.
  unfold engineer. rewrite build_features_eq. simpl.
  rewrite <- !app_assoc. reflexivity.
Qed.

Lemma sorted_features_index rows :
  index (sorted_features rows) = sort_order rows.
Proof. reflexivity. Qed.

Lemma sort_order_NoDup rows : NoDup (sort_order rows).
Proof. rewrite sort_order_perm. apply NoDup_seq. Qed.

Lemma pick_length o xs : length (pick o xs) = length o.
Proof. unfold pick. by rewrite length_fmap. Qed.

(** C2. In the frame [load_energy_data] engineers, the rows of every user
    stand in chronological order; at the [i]-th of them the lag-1 column of
    each tracked field holds the field's value at the user's row [i - 1]
    and the lag-7 column its value at row [i - 7], whenever that row
    exists; and a row short of seven earlier rows of its user is absent
    from the frame the function returns. *)
Theorem lag_features_per_entity (conn : database) (s : state) :
  "energy_logs" ∈ tables conn →
  select_energy_logs conn ≠ [] →
  ∃ feats : DataFrame,
    build_features (energy_frame (select_energy_logs conn)) = Ok feats ∧
    (run (load_energy_data conn) s).1 = Ok (DataFrame.dropna feats) ∧
    ∀ (u : string) (i p : nat),
      entity_rows feats u !! i = Some p →
      (∀ j q, i < j → entity_rows feats u !! j = Some q →
         ∃ d1 d2, value feats "log_date" p = Some d1 ∧
                  value feats "log_date" q = Some d2 ∧ cell_le d1 d2) ∧
      (∀ col, col ∈ lag_columns →
         (∀ q, 1 ≤ i → entity_rows feats u !! (i - 1) = Some q →
            ∃ v, value feats col q = Some v ∧
                 value feats (col +:+ "_lag1") p = Some v) ∧
         (∀ q, 7 ≤ i → entity_rows feats u !! (i - 7) = Some q →
            ∃ v, value feats col q = Some v ∧
                 value feats (col +:+ "_lag7") p = Some v)) ∧
      (i < 7 → ∀ l, index feats !! p = Some l →
         l ∉ index (DataFrame.dropna feats)).
Proof.
  intros Htab Hrows. set (rows := select_energy_logs conn).
  exists (sorted_features rows). split; [apply build_features_eq|].
  split.
  { destruct (load_energy_data_run conn s Htab Hrows) as [line ->]. done. }
  intros u i p Hp. split; [|split].
  - intros j q Hij Hq. by eapply sorted_features_chronological.
  - intros col Hcol. apply (featured_lags _ _ _ _ _ _ _ _); 
      rewrite ?pick_length; done.
  - intros Hi l Hl. eapply dropna_absent; [|done|].
    + rewrite sorted_features_index. apply sort_order_NoDup.
    + eapply featured_short_history; [|done..]. by rewrite !pick_length.
Qed.
End EnergyFeatures.

Lemma lag_features_per_entity_witness :
  "energy_logs" ∈ tables Fixture.store ∧
  select_energy_logs Fixture.store ≠ [] ∧
  ∃ feats : DataFrame,
    (@run Fixture.numpy Fixture.sklearn _
       (load_energy_data Fixture.store) Fixture.s0).1
      = Ok (DataFrame.dropna feats) ∧
    entity_rows feats "ada" !! 8 = Some 8 ∧
    value feats "mood_score" 7 = Some (Num 5) ∧
    value feats "mood_score_lag1" 8 = Some (Num 5).
Proof.
  assert ("energy_logs" ∈ tables Fixture.store) as H1
    by (unfold Fixture.store; simpl; repeat constructor).
  assert (select_energy_logs Fixture.store ≠ []) as H2
    by (vm_compute; discriminate).
  split; [exact H1|]. split; [exact H2|].
  destruct (@lag_features_per_entity Fixture.numpy Fixture.sklearn
              Fixture.store Fixture.s0 H1 H2) as (feats & Hb & Hrun & _).
  exists feats. split; [exact Hrun|].
  rewrite build_features_eq in Hb. injection Hb as <-.
  repeat split; vm_compute; reflexivity.
Defined.

Section Synthetic.
Context `{np : Numpy} `{sk : !Sklearn}.

(** *** The synthetic frame *)

Lemma draws_length {G A} (draw : G → A * G) n g :
  length (draws draw n g).1 = n.
Proof.
  revert g. induction n as [|n IH]; intros g; simpl; [done|].
  destruct (draw g) as [x g1]. specialize (IH g1).
  destruct (draws draw n g1) as [xs g2]. simpl in *. by rewrite IH.
Qed.

Lemma numeric_fmap {A} (f : A → Q) (l : list A) : numeric (Num ∘ f <$> l).
Proof. apply Forall_fmap, Forall_forall. intros x _. by exists (f x). Qed.

Lemma date_range_length n : length (date_range n) = n.
Proof. unfold date_range. by rewrite length_fmap, length_seq. Qed.

(** Whatever the generator was doing before, a call seeds it afresh: the
    frame and the generator state it leaves depend on [n] alone. *)
Lemma synthetic_frame_run n :
  ∃ (E Mo S H : list cell) (g : RandomState),
    (length E = n ∧ length Mo = n ∧ length S = n ∧ length H = n) ∧
    (numeric E ∧ numeric Mo ∧ numeric S ∧ numeric H) ∧
    ∀ s, run (synthetic_frame n) s =
         (Ok (synthetic_table n E Mo S H), mkState (trace s) g).
Proof.
  destruct (draws (np_random_normal 7 1.5) n (np_random_seed 42))
    as [hs g1] eqn:E1.
  destruct (draws (np_random_uniform 1 5) n g1) as [st g2] eqn:E2.
  destruct (draws (np_random_normal 3.5 1) n g2) as [mo g3] eqn:E3.
  destruct (draws (np_random_normal 0 0.5) n g3) as [no g4] eqn:E4.
  assert (length hs = n) as Hhs
    by (erewrite <- (draws_length _ n); by rewrite E1).
  assert (length st = n) as Hst
    by (erewrite <- (draws_length _ n); by rewrite E2).
  assert (length mo = n) as Hmo
    by (erewrite <- (draws_length _ n); by rewrite E3).
  assert (length no = n) as Hno
    by (erewrite <- (draws_length _ n); by rewrite E4).
  eexists _, _, _, _, g4. split; [|split]; cycle 2.
  - intros s. unfold synthetic_frame.
    cbn -[draws date_range fold_outcome seq replicate]. rewrite E1.
    cbn -[draws date_range fold_outcome seq replicate]. rewrite E2.
    cbn -[draws date_range fold_outcome seq replicate]. rewrite E3.
    cbn -[draws date_range fold_outcome seq replicate]. rewrite E4.
    reflexivity.
  - rewrite !length_fmap, !length_zip_with, !length_fmap, date_range_length.
    repeat split; lia.
  - repeat split.
    + rewrite <- list_fmap_compose. apply numeric_fmap.
    + rewrite <- list_fmap_compose.
      apply (numeric_fmap (λ x, inject_Z (np_round (clip 1 5 x)))).
    + apply (numeric_fmap (λ x, inject_Z (np_round x))).
    + rewrite <- list_fmap_compose. apply (numeric_fmap (np_round1 ∘ clip 4 10)).
Qed.


Lemma select_none {A} (mask : list bool) (xs : list A) :
  Forall (λ b, b = false) mask → DataFrame.select mask xs = [].
Proof.
  intros Hm. revert xs. induction Hm as [|b mask -> _ IH]; intros [|x xs]; simpl; auto.
Qed.

Lemma filter_all {A} (P : A → Prop) `{∀ x, Decision (P x)} (l : list A) :
  Forall P l → filter P l = l.
Proof.
  induction 1 as [|x l Hx _ IH]; [done|].
  rewrite filter_cons, decide_True by done. by rewrite IH.
Qed.

Lemma numeric_lookup xs p c : numeric xs → xs !! p = Some c → c ≠ NA.
Proof.
  intros Hn Hp. unfold numeric in Hn. rewrite Forall_forall in Hn.
  destruct (Hn c) as [q ->]; [by eapply list_elem_of_lookup_2|done].
Qed.

Ltac defined_case X NX Hdef Hna :=
  destruct Hna as [Hna|Hna];
  [apply (Hdef 1 X NX) in Hna|apply (Hdef 7 X NX) in Hna]; (done || lia).

Section Table.
Variables (n : nat) (E Mo S H : list cell).
Hypothesis HE : length E = n.
Hypothesis HMo : length Mo = n.
Hypothesis HS : length S = n.
Hypothesis HH : length H = n.
Let df := synthetic_table n E Mo S H.

Lemma synthetic_notes p : p < n → value df "notes" p = Some NA.
Proof. intros Hp. by apply lookup_replicate_2. Qed.

(** Every row holds a missing note, so [dropna] leaves no row. *)
Lemma synthetic_dropna :
  DataFrame.dropna df =
  mkFrame [] ((λ c : string * list cell, (c.1, [])) <$> columns df).
Proof.
  unfold DataFrame.dropna.
  assert (Forall (λ b, b = false)
            ((λ p, negb (DataFrame.row_has_na df p)) <$> seq 0 (DataFrame.len df)))
    as Hmask.
  { apply Forall_fmap, Forall_forall. intros p Hp%list_elem_of_In%in_seq. simpl.
    rewrite (row_has_na_intro df "notes" p); [done|].
    apply synthetic_notes. unfold DataFrame.len in Hp. simpl in Hp.
    rewrite length_seq in Hp. lia. }
  f_equal; [by apply select_none|].
  apply list_fmap_ext. intros i [c xs] _. simpl. f_equal. by apply select_none.
Qed.

Lemma synthetic_entity : entity_rows df "synthetic_user" = seq 0 n.
Proof.
  change (entity_rows df "synthetic_user")
    with (positions (replicate n (Str "synthetic_user")) (Str "synthetic_user")).
  unfold positions. rewrite length_replicate.
  apply filter_all, Forall_forall.
  intros p Hp%list_elem_of_In%in_seq. apply lookup_replicate_2. lia.
Qed.

Hypothesis NE : numeric E.
Hypothesis NMo : numeric Mo.
Hypothesis NS : numeric S.
Hypothesis NH : numeric H.

Lemma shift_numeric_defined k X p :
  numeric X → k ≤ p → p < length X → Series.shift k X !! p ≠ Some NA.
Proof.
  intros HX Hk Hp. rewrite shift_lookup_ge by done. intros Hq.
  by eapply numeric_lookup.
Qed.

(** The rows with an undefined lag are the first seven. *)
Lemma synthetic_lag_undefined p : p < n → lag_undefined df p ↔ p < 7.
Proof.
  intros Hp. split.
  - intros (col & Hcol & Hna). destruct (decide (p < 7)) as [|Hge]; [done|].
    exfalso. unfold lag_columns in Hcol.
    pose proof (λ k X HX, shift_numeric_defined k X p HX) as Hdef.
    repeat (apply elem_of_cons in Hcol as [->|Hcol]);
      [defined_case E NE Hdef Hna | defined_case Mo NMo Hdef Hna
      |defined_case S NS Hdef Hna | defined_case H NH Hdef Hna
      |by apply elem_of_nil in Hcol].
  - intros Hlt. exists "energy_level". split; [unfold lag_columns; repeat constructor|].
    right. apply (shift_lookup_lt 7 E p); lia.
Qed.

End Table.

Lemma synthetic_available n E Mo S H :
  available (synthetic_table n E Mo S H) = feature_cols ∧
  available (DataFrame.dropna (synthetic_table n E Mo S H)) = feature_cols.
Proof. split; [reflexivity|]. vm_compute. reflexivity. Qed.

End Synthetic.

Section Fallback.
Context `{np : Numpy} `{sk : !Sklearn}.
Variable cross_val_score :
  classifier → matrix → list Z → RandomState →
  (exn + list float) * RandomState.

Lemma generate_synthetic_data_run n :
  ∃ (E Mo S H : list cell) (g : RandomState),
    (length E = n ∧ length Mo = n ∧ length S = n ∧ length H = n) ∧
    (numeric E ∧ numeric Mo ∧ numeric S ∧ numeric H) ∧
    ∀ s, run (synthetic_frame n) s =
           (Ok (synthetic_table n E Mo S H), mkState (trace s) g) ∧
         run (generate_synthetic_data n) s =
           (Ok (mkFrame [] ((λ c : string * list cell, (c.1, [])) <$>
                              columns (synthetic_table n E Mo S H))),
            mkState (trace s) g).
Proof.
  destruct (synthetic_frame_run n) as (E & Mo & S & H & g & Hlen & Hnum & Hrun).
  exists E, Mo, S, H, g. split; [done|]. split; [done|]. intros s.
  split; [apply Hrun|]. unfold generate_synthetic_data.
  destruct Hlen as (? & ? & ? & ?).
  rewrite <- (synthetic_dropna n E Mo S H) by done.
  change (run (?m ≫= ?f) s) with
    (match run m s with
     | (Ok a, s') => run (f a) s'
     | (Raise e, s') => (Raise e, s')
     | (SysExit c, s') => (SysExit c, s')
     end).
  by rewrite Hrun.
Qed.

Lemma run_bind {A B} (m : M A) (f : A → M B) s :
  run (m ≫= f) s =
  match run m s with
  | (Ok a, s') => run (f a) s'
  | (Raise e, s') => (Raise e, s')
  | (SysExit c, s') => (SysExit c, s')
  end.
Proof. reflexivity. Qed.

Lemma prepare_features_no_rows n E Mo S H s :
  run (prepare_features
         (mkFrame [] ((λ c : string * list cell, (c.1, [])) <$>
                        columns (synthetic_table n E Mo S H)))) s
  = (Ok ([], []), s).
Proof. reflexivity. Qed.

(** The synthetic path of [main], from the call of the generator on. *)
Lemma synthetic_path_exit s :
  ∃ g, ∀ (k : matrix * list Z → M (gmap string pyval)),
    run (df ← (df ← generate_synthetic_data 200;
               print [Lit nl; Lit "Generated "; FNat (DataFrame.len df);
                      Lit " synthetic energy logs"];;
               mret df);
         '(X, y) ← prepare_features df;
         (if decide (length X = 0) then
            print [Lit nl; Lit "Error: Could not prepare features. Exiting."];;
            sys_exit 1
          else mret ());;
         k (X, y)) s
    = (SysExit 1,
       mkState (trace s ++
                [Print [Lit nl; Lit "Generated "; FNat 0;
                        Lit " synthetic energy logs"];
                 Print [Lit nl;
                        Lit "Error: Could not prepare features. Exiting."]])
               g).
Proof.
  destruct (generate_synthetic_data_run 200) as (E & Mo & S & H & g & _ & _ & Hrun).
  exists g. intros k.
  rewrite 2!run_bind, (proj2 (Hrun s)).
  cbn -[str_mul prepare_features fmap].
  rewrite run_bind.
  change (run (prepare_features _) ?st) with (@Ok (matrix * list Z) ([], []), st).
  lazy -[app trace rng nl]. cbn [trace rng]. by rewrite <- app_assoc.
Qed.

(** With no store at the path, every run ends in [sys.exit(1)]: the
    generator's frame is empty after its [dropna]. *)
Lemma main_no_store tab path (fs : gmap string database) s :
  fs !! path = None →
  ∃ g,
    run (main cross_val_score tab path fs) s =
    (SysExit 1,
     mkState (trace s ++
              [Print [Lit (str_mul "=" 60)];
               Print [Lit "TabPFN 2.5 POC for Stride - Energy Prediction"];
               Print [Lit (str_mul "=" 60)];
               Print [];
               Print [Lit "Database not found: "; FPath path];
               Print [Lit "Using synthetic data for demonstration."];
               Print [Lit nl; Lit "Generated "; FNat 0;
                      Lit " synthetic energy logs"];
               Print [Lit nl;
                      Lit "Error: Could not prepare features. Exiting."]])
             g).
Proof.
  intros Hfs.
  destruct (generate_synthetic_data_run 200) as (E & Mo & S & H & g & _ & _ & Hrun).
  exists g. unfold main. rewrite Hfs.
  lazy -[app trace rng nl str_mul generate_synthetic_data prepare_features
         evaluate_tabpfn].
  rewrite (proj2 (Hrun _)).
  lazy -[app trace rng nl str_mul evaluate_tabpfn].
  cbn [trace rng]. rewrite <- !app_assoc. reflexivity.
Qed.
End Fallback.

Section Producers.
Context `{np : Numpy} `{sk : !Sklearn}.

(** C9. [generate_synthetic_data] seeds the global generator itself, so
    its result does not depend on what the generator did before: started
    from any two states, two calls with the same sample count return the
    same frame (before and after the final [dropna]) and leave the
    generator in the same state. *)
Theorem synthetic_generation_deterministic (n : nat) (s1 s2 : state) :
  (run (generate_synthetic_data n) s1).1
    = (run (generate_synthetic_data n) s2).1 ∧
  (run (synthetic_frame n) s1).1 = (run (synthetic_frame n) s2).1 ∧
  rng (run (generate_synthetic_data n) s1).2
    = rng (run (generate_synthetic_data n) s2).2.
Proof.
  destruct (generate_synthetic_data_run n)
    as (E & Mo & S & H & g & _ & _ & Hrun).
  destruct (Hrun s1) as [-> ->]. destruct (Hrun s2) as [-> ->]. done.
Qed.

(** C10. Both producers end in a [dropna] over every column. A row of the
    frame [load_energy_data] engineers is absent from its result as soon
    as any of its columns, the notes included, is missing there. The
    synthetic generator leaves the notes of every row missing, so its
    result has no row at all, although from the eighth row on every lag
    column is defined. *)
Theorem dropna_covers_every_column :
  (∀ (conn : database) (s : state),
     "energy_logs" ∈ tables conn → select_energy_logs conn ≠ [] →
     ∃ feats : DataFrame,
       build_features (energy_frame (select_energy_logs conn)) = Ok feats ∧
       (run (load_energy_data conn) s).1 = Ok (DataFrame.dropna feats) ∧
       ∀ (col : string) (p l : nat),
         index feats !! p = Some l → value feats col p = Some NA →
         l ∉ index (DataFrame.dropna feats)) ∧
  (∀ (n : nat) (s : state),
     ∃ df : DataFrame,
       (run (synthetic_frame n) s).1 = Ok df ∧
       (run (generate_synthetic_data n) s).1 = Ok (DataFrame.dropna df) ∧
       DataFrame.len df = n ∧
       (∀ p, p < n → value df "notes" p = Some NA) ∧
       (∀ p, 7 ≤ p → p < n → ¬ lag_undefined df p) ∧
       index (DataFrame.dropna df) = []).
Proof.
  split.
  - intros conn s Htab Hrows. exists (sorted_features (select_energy_logs conn)).
    split; [apply build_features_eq|]. split.
    { destruct (load_energy_data_run conn s Htab Hrows) as [line ->]. done. }
    intros col p l Hl Hna. eapply dropna_absent; [|done..].
    rewrite sorted_features_index. apply sort_order_NoDup.
  - intros n s.
    destruct (generate_synthetic_data_run n)
      as (E & Mo & S & H & g & (HE & HMo & HS & HH) & (NE & NMo & NS & NH) & Hrun).
    exists (synthetic_table n E Mo S H). destruct (Hrun s) as [-> ->].
    rewrite synthetic_dropna by done. split; [done|]. split; [done|].
    split; [by apply length_seq|]. split; [apply synthetic_notes|].
    split; [|done].
    intros p Hp Hn Hu. apply synthetic_lag_undefined in Hu; [lia|done..].
Qed.

End Producers.

Lemma dropna_covers_every_column_witness :
  "energy_logs" ∈ tables Fixture.store_quiet ∧
  select_energy_logs Fixture.store_quiet ≠ [] ∧
  ∃ feats : DataFrame,
    (@run Fixture.numpy Fixture.sklearn _
       (load_energy_data Fixture.store_quiet) Fixture.s0).1
      = Ok (DataFrame.dropna feats) ∧
    index feats !! 10 = Some 10 ∧
    value feats "notes" 10 = Some NA ∧
    value feats "energy_level_lag7" 10 = Some (Num 4) ∧
    10 ∉ index (DataFrame.dropna feats).
Proof.
  assert ("energy_logs" ∈ tables Fixture.store_quiet) as H1
    by (unfold Fixture.store_quiet; simpl; repeat constructor).
  assert (select_energy_logs Fixture.store_quiet ≠ []) as H2
    by (vm_compute; discriminate).
  split; [exact H1|]. split; [exact H2|].
  destruct (proj1 (@dropna_covers_every_column Fixture.numpy Fixture.sklearn)
              Fixture.store_quiet Fixture.s0 H1 H2) as (feats & Hb & Hrun & Hdrop).
  exists feats. split; [exact Hrun|].
  rewrite build_features_eq in Hb. injection Hb as <-.
  assert (index (@sorted_features Fixture.numpy
                   (select_energy_logs Fixture.store_quiet)) !! 10
          = Some 10) as Hl by (vm_compute; reflexivity).
  assert (value (@sorted_features Fixture.numpy
                   (select_energy_logs Fixture.store_quiet))
            "notes" 10 = Some NA) as Hna by (vm_compute; reflexivity).
  split; [exact Hl|]. split; [exact Hna|].
  split; [vm_compute; reflexivity|].
  exact (Hdrop "notes" 10 10 Hl Hna).
Defined.

(** *** Rolling means inside a group *)

Lemma members_positions U X k :
  length X = length U →
  Some <$> GroupBy.members U X k = (λ q, X !! q) <$> positions U k.
Proof.
  intros Hlen. apply list_eq. intros i. rewrite !list_lookup_fmap.
  destruct (positions U k !! i) as [p|] eqn:Ep; simpl.
  - rewrite (members_lookup _ _ _ _ _ Hlen Ep).
    destruct (lookup_lt_is_Some_2 X p) as [v ->]; [|done].
    rewrite Hlen. apply positions_lookup in Ep as [Ep _]. by eapply lookup_lt_Some.
  - rewrite lookup_ge_None_2; [done|].
    rewrite members_length by done. by apply lookup_ge_None.
Qed.

Lemma window_mean_numbers qs :
  qs ≠ [] → Series.window_mean 1 (Num <$> qs) = Num (Series.mean qs).
Proof.
  intros Hqs. unfold Series.window_mean.
  assert (Series.observations (Num <$> qs) = qs) as ->.
  { unfold Series.observations. clear Hqs.
    induction qs as [|q qs IH]; [done|]. csimpl. by rewrite IH. }
  rewrite decide_True; [done|]. destruct qs; [done|]. simpl. lia.
Qed.

Lemma group_rolling_early U X u k p cs :
  length X = length U → 1 ≤ k → k ≤ 7 →
  positions U (Str u) !! (k - 1) = Some p →
  (λ q, X !! q) <$> take k (positions U (Str u)) = Some <$> cs →
  GroupBy.transform (Series.rolling_mean 7 1) U X !! p
  = Some (Series.window_mean 1 cs).
Proof.
  intros Hlen Hk1 Hk7 Hp Hcs.
  destruct (positions_lookup _ _ _ _ Hp) as [HU Hrank].
  assert (k - 1 < length (GroupBy.members U X (Str u))) as Hin.
  { rewrite members_length by done. by eapply lookup_lt_Some. }
  rewrite (transform_lookup _ _ _ _ _ HU) by done.
  rewrite Hrank, rolling_mean_lookup by done. simpl.
  rewrite window_early by lia. replace (S (k - 1)) with k by lia.
  rewrite fmap_take, <- members_positions, <- fmap_take in Hcs by done.
  apply (inj (fmap Some)) in Hcs. by rewrite Hcs.
Qed.

Lemma rolling_early X k cs :
  1 ≤ k → k ≤ 7 → k ≤ length X →
  (λ q, X !! q) <$> seq 0 k = Some <$> cs →
  Series.rolling_mean 7 1 X !! (k - 1) = Some (Series.window_mean 1 cs).
Proof.
  intros Hk1 Hk7 Hk Hcs. rewrite rolling_mean_lookup by lia.
  rewrite window_early by lia. replace (S (k - 1)) with k by lia.
  f_equal. f_equal. apply (inj (fmap Some)). rewrite <- Hcs.
  apply list_eq. intros i. rewrite !list_lookup_fmap.
  destruct (decide (i < k)) as [Hi|Hi].
  - rewrite lookup_take_lt, lookup_seq_lt by done. simpl.
    by destruct (lookup_lt_is_Some_2 X i) as [v ->]; [lia|].
  - rewrite lookup_take_ge, lookup_seq_ge by lia. done.
Qed.

Section Rolling.
Context `{np : Numpy} `{sk : !Sklearn}.

Lemma featured_rolling ix U D E Mo S H N u k p col qs :
  length E = length U → length Mo = length U → length S = length U →
  let feats := featured_frame ix U D E Mo S H N in
  col ∈ rolling_columns → 1 ≤ k → k ≤ 7 →
  entity_rows feats u !! (k - 1) = Some p →
  values_at feats col (take k (entity_rows feats u)) = (Some ∘ Num) <$> qs →
  value feats (col +:+ "_rolling7") p = Some (Num (Series.mean qs)).
Proof.
  intros HE HMo HS feats Hcol Hk1 Hk7 Hp Hqs.
  change (entity_rows feats u) with (positions U (Str u)) in *.
  assert (qs ≠ []) as Hne.
  { intros ->. apply (f_equal length) in Hqs. unfold values_at in Hqs.
    rewrite !length_fmap, length_take in Hqs.
    apply lookup_lt_Some in Hp. simpl in Hqs. lia. }
  rewrite list_fmap_compose in Hqs. rewrite <- (window_mean_numbers qs Hne).
  pose proof (λ X HX, group_rolling_early U X u k p (Num <$> qs) HX Hk1 Hk7 Hp)
    as Hroll.
  unfold rolling_columns in Hcol.
  repeat (apply elem_of_cons in Hcol as [->|Hcol]);
    [exact (Hroll E HE Hqs) | exact (Hroll Mo HMo Hqs) | exact (Hroll S HS Hqs)
    |by apply elem_of_nil in Hcol].
Qed.

Lemma synthetic_rolling n E Mo S H k col qs :
  length E = n → length Mo = n → length S = n →
  let df := synthetic_table n E Mo S H in
  col ∈ rolling_columns → 1 ≤ k → k ≤ 7 → k ≤ n →
  values_at df col (seq 0 k) = (Some ∘ Num) <$> qs →
  value df (col +:+ "_rolling7") (k - 1) = Some (Num (Series.mean qs)).
Proof.
  intros HE HMo HS df Hcol Hk1 Hk7 Hkn Hqs.
  assert (qs ≠ []) as Hne.
  { intros ->. apply (f_equal length) in Hqs. unfold values_at in Hqs.
    rewrite !length_fmap, length_seq in Hqs. simpl in Hqs. lia. }
  rewrite list_fmap_compose in Hqs. rewrite <- (window_mean_numbers qs Hne).
  pose proof (λ X HX, rolling_early X k (Num <$> qs) Hk1 Hk7 HX) as Hroll.
  unfold rolling_columns in Hcol.
  repeat (apply elem_of_cons in Hcol as [->|Hcol]);
    [apply (Hroll E) | apply (Hroll Mo) | apply (Hroll S)
    |by apply elem_of_nil in Hcol]; (lia || exact Hqs).
Qed.

(** C8. For each field with a rolling feature, the 7-window rolling mean
    at a user's [k]-th row, [k] below 7, is the arithmetic mean of the
    field over that user's first [k] rows, the current one included: rows
    of other users never enter it. The same holds in the synthetic frame,
    whose rows are those of one user. *)
Theorem rolling_mean_per_entity :
  (∀ (conn : database) (s : state),
     "energy_logs" ∈ tables conn → select_energy_logs conn ≠ [] →
     ∃ feats : DataFrame,
       build_features (energy_frame (select_energy_logs conn)) = Ok feats ∧
       (run (load_energy_data conn) s).1 = Ok (DataFrame.dropna feats) ∧
       ∀ (u : string) (k p : nat) (col : string) (qs : list Q),
         col ∈ rolling_columns → 1 ≤ k → k < 7 →
         entity_rows feats u !! (k - 1) = Some p →
         values_at feats col (take k (entity_rows feats u))
           = (Some ∘ Num) <$> qs →
         value feats (col +:+ "_rolling7") p = Some (Num (Series.mean qs))) ∧
  (∀ (n : nat) (s : state),
     ∃ df : DataFrame,
       (run (synthetic_frame n) s).1 = Ok df ∧
       entity_rows df "synthetic_user" = seq 0 n ∧
       ∀ (k : nat) (col : string) (qs : list Q),
         col ∈ rolling_columns → 1 ≤ k → k < 7 → k ≤ n →
         values_at df col (take k (entity_rows df "synthetic_user"))
           = (Some ∘ Num) <$> qs →
         value df (col +:+ "_rolling7") (k - 1)
           = Some (Num (Series.mean qs))).
Proof.
  split.
  - intros conn s Htab Hrows. exists (sorted_features (select_energy_logs conn)).
    split; [apply build_features_eq|]. split.
    { destruct (load_energy_data_run conn s Htab Hrows) as [line ->]. done. }
    intros u k p col qs Hcol Hk1 Hk7 Hp Hqs.
    eapply featured_rolling; [..|exact Hp|exact Hqs]; 
      rewrite ?pick_length; (done || lia).
  - intros n s.
    destruct (synthetic_frame_run n)
      as (E & Mo & S & H & g & (HE & HMo & HS & HH) & _ & Hrun).
    exists (synthetic_table n E Mo S H). rewrite Hrun. split; [done|].
    split; [by apply synthetic_entity|].
    intros k col qs Hcol Hk1 Hk7 Hkn Hqs.
    rewrite synthetic_entity, take_seq in Hqs by done.
    replace (k `min` n) with k in Hqs by lia.
    eapply synthetic_rolling; [done..|lia|done|done].
Qed.

End Rolling.

Lemma rolling_mean_per_entity_witness :
  "energy_logs" ∈ tables Fixture.store ∧
  select_energy_logs Fixture.store ≠ [] ∧
  ∃ feats : DataFrame,
    (@run Fixture.numpy Fixture.sklearn _
       (load_energy_data Fixture.store) Fixture.s0).1
      = Ok (DataFrame.dropna feats) ∧
    value feats "mood_score_rolling7" 2
      = Some (Num (Series.mean [1; 3; 5]%Q)).
Proof.
  assert ("energy_logs" ∈ tables Fixture.store) as H1
    by (unfold Fixture.store; simpl; repeat constructor).
  assert (select_energy_logs Fixture.store ≠ []) as H2
    by (vm_compute; discriminate).
  split; [exact H1|]. split; [exact H2|].
  destruct (proj1 (@rolling_mean_per_entity Fixture.numpy Fixture.sklearn)
              Fixture.store Fixture.s0 H1 H2) as (feats & Hb & Hrun & Hroll).
  exists feats. split; [exact Hrun|].
  rewrite build_features_eq in Hb. injection Hb as <-.
  apply (Hroll "ada" 3 2 "mood_score" [1; 3; 5]%Q).
  - unfold rolling_columns. repeat constructor.
  - lia.
  - lia.
  - vm_compute. reflexivity.
  - vm_compute. reflexivity.
Defined.

Section NoStore.
Context `{np : Numpy} `{sk : !Sklearn}.
Variable cross_val_score :
  classifier → matrix → list Z → RandomState →
  (exn + list float) * RandomState.

(** C1, as the code has it. With no store at the path, [main] takes the
    synthetic path and reports the size of what the generator returns. The
    generator builds 200 records of the one user "synthetic_user"; the
    records with an undefined lag feature are exactly the first 7, so 193
    have every lag defined; and the selector finds all 12 candidate
    columns, before and after the final [dropna]. *)
Theorem synthetic_run_shape (tab : bool) (path : string)
    (fs : gmap string database) (s : state) :
  fs !! path = None →
  ∃ (df : DataFrame) (rest : list event),
    (run (synthetic_frame 200) s).1 = Ok df ∧
    (run (generate_synthetic_data 200) s).1 = Ok (DataFrame.dropna df) ∧
    trace (run (main cross_val_score tab path fs) s).2 =
      trace s ++
      [Print [Lit (str_mul "=" 60)];
       Print [Lit "TabPFN 2.5 POC for Stride - Energy Prediction"];
       Print [Lit (str_mul "=" 60)];
       Print [];
       Print [Lit "Database not found: "; FPath path];
       Print [Lit "Using synthetic data for demonstration."];
       Print [Lit nl; Lit "Generated ";
              FNat (DataFrame.len (DataFrame.dropna df));
              Lit " synthetic energy logs"]] ++ rest ∧
    DataFrame.len df = 200 ∧
    entity_rows df "synthetic_user" = seq 0 200 ∧
    (∀ p, p < 200 → lag_undefined df p ↔ p < 7) ∧
    available df = feature_cols ∧
    available (DataFrame.dropna df) = feature_cols ∧
    length feature_cols = 12.
Proof.
  intros Hfs.
  destruct (main_no_store cross_val_score tab path fs s Hfs) as [g' Hmain].
  destruct (generate_synthetic_data_run 200)
    as (E & Mo & S & H & g & (HE & HMo & HS & HH) & (NE & NMo & NS & NH) & Hrun).
  exists (synthetic_table 200 E Mo S H), 
    [Print [Lit nl; Lit "Error: Could not prepare features. Exiting."]].
  destruct (Hrun s) as [-> ->]. rewrite Hmain.
  rewrite synthetic_dropna by done.
  split; [done|]. split; [done|]. split.
  { cbn [trace snd]. f_equal. }
  split; [by apply length_seq|].
  split; [by apply synthetic_entity|].
  split; [intros p Hp; by apply synthetic_lag_undefined|].
  rewrite <- (synthetic_dropna 200 E Mo S H) by done.
  split; [apply synthetic_available|]. split; [apply synthetic_available|done].
Qed.

End NoStore.

Lemma synthetic_run_shape_witness :
  filesystem Fixture.no_store !! DEFAULT_DUCKDB_PATH = None ∧
  ∃ df : DataFrame,
    (@run Fixture.numpy Fixture.sklearn _ (synthetic_frame 200) Fixture.s0).1
      = Ok df ∧
    DataFrame.len df = 200 ∧
    (lag_undefined df 6 ∧ ¬ lag_undefined df 7) ∧
    available df = feature_cols.
Proof.
  assert (filesystem Fixture.no_store !! DEFAULT_DUCKDB_PATH = None) as H0
    by reflexivity.
  split; [exact H0|].
  destruct (@synthetic_run_shape Fixture.numpy Fixture.sklearn
              Fixture.cross_val_score true DEFAULT_DUCKDB_PATH
              (filesystem Fixture.no_store) Fixture.s0 H0)
    as (df & rest & Hdf & _ & _ & Hlen & _ & Hlag & Hav & _).
  exists df. split; [exact Hdf|]. split; [exact Hlen|]. split; [|exact Hav].
  split.
  - apply Hlag; lia.
  - intros Hu. apply Hlag in Hu; lia.
Defined.

Section Startup.
Context `{np : Numpy} `{sk : !Sklearn}.
Variable cross_val_score :
  classifier → matrix → list Z → RandomState →
  (exn + list float) * RandomState.

(** With duckdb and scikit-learn installed the script reaches [main],
    after the warning if tabpfn is missing. *)
Lemma script_run w s :
  duckdb_installed w = true → sklearn_installed w = true →
  run (script cross_val_score w) s =
  run (main cross_val_score (tabpfn_installed w) (path_of w) (filesystem w))
      (mkState (trace s ++ (if tabpfn_installed w then [] else tabpfn_warning))
               (rng s)).
Proof.
  intros Hd Hs. unfold script. rewrite Hd, Hs.
  destruct (tabpfn_installed w).
  - rewrite app_nil_r. by destruct s.
  - rewrite !run_bind. cbn -[main]. rewrite <- app_assoc. done.
Qed.

End Startup.

(** *** What a run can add to the trace *)

Section Emits.
Context `{np : Numpy} `{sk : !Sklearn}.
Context (P : event → Prop).

Lemma emits_ret {A} (a : A) : emits_only P (mret a).
Proof. intros s. exists []. by rewrite app_nil_r. Qed.

Lemma emits_lift {A} (o : outcome A) : emits_only P (lift o).
Proof. intros s. exists []. by rewrite app_nil_r. Qed.

Lemma emits_sys_exit {A} c : emits_only P (sys_exit (A:=A) c).
Proof. apply emits_lift. Qed.

Lemma emits_invoke {A} (r : exn + A) : emits_only P (invoke r).
Proof. apply emits_lift. Qed.

Lemma emits_emit e : P e → emits_only P (emit e).
Proof. intros He s. exists [e]. split; [done|]. by constructor. Qed.

Lemma emits_random {A} (f : RandomState → A * RandomState) :
  emits_only P (random f).
Proof.
  intros s. exists []. rewrite app_nil_r. unfold random. simpl.
  by destruct (f (rng s)).
Qed.

Lemma emits_bind {A B} (m : M A) (f : A → M B) :
  emits_only P m → (∀ a, emits_only P (f a)) → emits_only P (m ≫= f).
Proof.
  intros Hm Hf s. rewrite run_bind. destruct (Hm s) as (t1 & Ht1 & HP1).
  destruct (run m s) as [[a| |] s1]; simpl in *; try by exists t1.
  destruct (Hf a s1) as (t2 & Ht2 & HP2). exists (t1 ++ t2).
  rewrite Ht2, Ht1, app_assoc. split; [done|]. by apply Forall_app.
Qed.

Lemma emits_fmap {A B} (g : A → B) (m : M A) :
  emits_only P m → emits_only P (g <$> m).
Proof. intros Hm. apply emits_bind; [done|]. intros a. apply emits_ret. Qed.

End Emits.

Ltac emits_step :=
  first
    [ apply emits_ret | apply emits_lift | apply emits_sys_exit
    | apply emits_invoke | apply emits_random | apply emits_fmap
    | apply emits_emit; done
    | apply emits_bind; [|intros ?] ].

Ltac line := apply emits_emit; split; discriminate.

Section Invariant.
Context `{np : Numpy} `{sk : !Sklearn}.
Variable cross_val_score :
  classifier → matrix → list Z → RandomState →
  (exn + list float) * RandomState.

Lemma emits_weaken (P Q : event → Prop) {A} (m : M A) :
  (∀ e, P e → Q e) → emits_only P m → emits_only Q m.
Proof.
  intros HPQ Hm s. destruct (Hm s) as (t & Ht & HP). exists t.
  split; [done|]. eapply Forall_impl; done.
Qed.

(** The continuation only matters on values the first part can return. *)
Lemma emits_bind_returns (P : event → Prop) {A B} (m : M A) (f : A → M B) :
  emits_only P m → (∀ a, returns m a → emits_only P (f a)) →
  emits_only P (m ≫= f).
Proof.
  intros Hm Hf s. rewrite run_bind. destruct (Hm s) as (t1 & Ht1 & HP1).
  destruct (run m s) as [[a| |] s1] eqn:Hrun; simpl in *; try by exists t1.
  destruct (Hf a (ex_intro _ s (ex_intro _ s1 Hrun)) s1) as (t2 & Ht2 & HP2).
  exists (t1 ++ t2). rewrite Ht2, Ht1, app_assoc. split; [done|].
  by apply Forall_app.
Qed.

Variable tab : bool.

Lemma main_print line : after_startup line → emits_only (main_event tab) (print line).
Proof. intros Hl. by apply emits_emit. Qed.

Lemma main_load_energy_data conn : emits_only (main_event tab) (load_energy_data conn).
Proof.
  unfold load_energy_data, execute.
  apply emits_bind; [apply emits_emit; by left|intros _].
  case_decide.
  - apply emits_bind; [line|intros _; apply emits_ret].
  - apply emits_bind; [apply emits_emit; by right|intros _].
    destruct (DataFrame.empty _).
    + apply emits_bind; [line|intros _; apply emits_ret].
    + apply emits_bind; [apply emits_lift|intros ?].
      apply emits_bind; [line|intros _; apply emits_lift].
Qed.

Lemma main_generate_synthetic_data n :
  emits_only (main_event tab) (generate_synthetic_data n).
Proof. unfold generate_synthetic_data, synthetic_frame. repeat emits_step. Qed.

Lemma main_prepare_features df : emits_only (main_event tab) (prepare_features df).
Proof.
  unfold prepare_features. case_decide.
  - apply emits_bind; [line|intros _; apply emits_ret].
  - repeat emits_step.
Qed.

Lemma returns_ret {A} (a b : A) : returns (mret a) b → b = a.
Proof. intros (s & s' & [= -> _]). done. Qed.

Lemma returns_bind {A B} (m : M A) (f : A → M B) b :
  returns (m ≫= f) b → ∃ a, returns m a ∧ returns (f a) b.
Proof.
  intros (s & s' & Hrun). rewrite run_bind in Hrun.
  destruct (run m s) as [[a| |] s1] eqn:Hm; try done.
  exists a. split; by eexists _, _.
Qed.

Lemma main_fit X y : emits_only (main_event tab) (fit (initial_classifier tab) X y).
Proof.
  unfold fit. apply emits_bind; [by apply emits_emit|intros _].
  destruct tab; repeat emits_step.
Qed.

Lemma fit_same_class X y clf :
  returns (fit (initial_classifier tab) X y) clf → same_class tab clf.
Proof.
  unfold fit. intros (a & _ & Hret)%returns_bind.
  destruct tab; simpl in Hret.
  - apply returns_bind in Hret as (m & _ & ->%returns_ret). done.
  - apply returns_ret in Hret as ->. done.
Qed.

Lemma main_predict clf X : same_class tab clf → emits_only (main_event tab) (predict clf X).
Proof.
  intros Hclf. unfold predict. apply emits_bind; [by apply emits_emit|intros _].
  destruct clf as [[m|]|[[|c cs]|]]; repeat emits_step.
Qed.

Lemma main_evaluate_tabpfn X y :
  emits_only (main_event tab) (evaluate_tabpfn cross_val_score tab X y).
Proof.
  unfold evaluate_tabpfn. case_decide; [apply emits_ret|].
  apply emits_bind_returns.
  { destruct tab; (apply emits_bind; [line|intros _; apply emits_ret]). }
  intros clf Hclf.
  assert (clf = initial_classifier tab) as ->.
  { destruct tab; apply returns_bind in Hclf as (? & _ & ->%returns_ret); done. }
  apply emits_bind; [by apply emits_emit|intros _].
  apply emits_bind; [apply emits_invoke|intros [[[Xtr Xte] ytr] yte]].
  do 3 (apply emits_bind; [line|intros _]).
  apply emits_bind_returns; [apply main_fit|intros clf' Hclf'%fit_same_class].
  apply emits_bind; [by apply main_predict|intros ypred].
  apply emits_bind; [by apply emits_emit|intros _].
  apply emits_bind; [apply emits_invoke|intros acc].
  apply emits_bind; [by apply emits_emit|intros _].
  apply emits_bind.
  { intros s. exists []. rewrite app_nil_r. simpl.
    by destruct (cross_val_score clf' X y (rng s)). }
  intros scores. apply emits_bind; [by apply emits_emit|intros _].
  apply emits_bind; [apply emits_invoke|intros rep]. apply emits_ret.
Qed.

Lemma main_item results key : emits_only (main_event tab) (item results key).
Proof. unfold item. destruct (results !! key); repeat emits_step. Qed.

Lemma main_interpret v : emits_only (main_event tab) (interpret v).
Proof. unfold interpret. destruct v; repeat emits_step. Qed.

Ltac main_step :=
  first
    [ apply emits_ret | apply emits_sys_exit
    | line
    | apply emits_emit; exact I
    | apply main_item | apply main_interpret
    | apply main_evaluate_tabpfn | apply main_prepare_features
    | apply main_generate_synthetic_data | apply main_load_energy_data
    | apply emits_bind; [|intros ?]
    | case_decide
    | match goal with
      | |- emits_only _ (match ?x with _ => _ end) => destruct x
      | |- emits_only _ (let (_, _) := ?x in _) => destruct x
      end ].

(** Everything [main] adds to the trace is an event of [main]. *)
Lemma main_events path fs :
  emits_only (main_event tab) (main cross_val_score tab path fs).
Proof. unfold main. repeat main_step. Qed.

End Invariant.

Section Events.
Context `{np : Numpy} `{sk : !Sklearn}.
Variable cross_val_score :
  classifier → matrix → list Z → RandomState →
  (exn + list float) * RandomState.

(** Everything the script adds to the trace is an event of the script. *)
Lemma script_events w :
  emits_only (script_event (tabpfn_installed w)) (script cross_val_score w).
Proof.
  unfold script.
  apply emits_bind; [|intros _].
  { destruct (duckdb_installed w); [apply emits_ret|].
    apply emits_bind; [by apply emits_emit|intros _; apply emits_sys_exit]. }
  apply emits_bind; [|intros _].
  { destruct (sklearn_installed w); [apply emits_ret|].
    apply emits_bind; [by apply emits_emit|intros _; apply emits_sys_exit]. }
  apply emits_bind; [|intros _].
  { destruct (tabpfn_installed w); [apply emits_ret|].
    apply emits_bind; [by apply emits_emit|intros _; by apply emits_emit]. }
  eapply emits_weaken; [|apply main_events]. by intros [].
Qed.

Lemma script_queries tab (t : list event) :
  Forall (script_event tab) t → SELECT_academic_events ∉ queries t.
Proof.
  unfold queries. induction 1 as [|e t He _ IH]; [by intros ?%elem_of_nil|].
  destruct e as [| |q| | | | | | |]; simpl in *; try done.
  intros [Hq|?]%elem_of_cons; [|done]. by destruct He; subst q.
Qed.

Lemma main_ignores_events evs today tab path (fs : gmap string database) :
  main cross_val_score tab path (with_events evs today <$> fs)
  = main cross_val_score tab path fs.
Proof.
  unfold main. rewrite lookup_fmap. by destruct (fs !! path).
Qed.

(** C3, as the code has it. [load_academic_events] sends the events query
    and returns its four columns, but no run calls it: whatever the world,
    the script never sends that query, and replacing the events table and
    the current date of every store leaves the whole run unchanged. *)
Theorem events_never_loaded (w : world) (s : state)
    (evs : list academic_event) (today : Z) :
  (∃ t, trace (run (script cross_val_score w) s).2 = trace s ++ t ∧
        SELECT_academic_events ∉ queries t) ∧
  run (script cross_val_score
         (mkWorld (duckdb_installed w) (sklearn_installed w)
                  (tabpfn_installed w) (environ w)
                  (with_events evs today <$> filesystem w))) s
    = run (script cross_val_score w) s ∧
  (∀ conn : database,
     "academic_events" ∈ tables conn →
     run (load_academic_events conn) s =
       (Ok (events_frame (select_academic_events conn)),
        mkState (trace s ++ [Execute SHOW_TABLES;
                             Execute SELECT_academic_events]) (rng s)) ∧
     DataFrame.names (events_frame (select_academic_events conn))
       = ["user_id"; "event_date"; "event_type"; "stress_multiplier"]).
Proof.
  split; [|split].
  - destruct (script_events w s) as (t & Ht & HP).
    exists t. split; [done|]. by eapply script_queries.
  - unfold script.
    cbn [duckdb_installed sklearn_installed tabpfn_installed environ filesystem].
    by rewrite main_ignores_events.
  - intros conn Hconn. split; [|done].
    unfold load_academic_events, execute. rewrite run_bind. simpl.
    destruct (decide ("academic_events" ∉ tables conn)); [done|].
    simpl. by rewrite <- app_assoc.
Qed.

End Events.

Lemma events_never_loaded_witness :
  "academic_events" ∈ tables Fixture.store ∧
  DataFrame.names (events_frame (select_academic_events Fixture.store))
    = ["user_id"; "event_date"; "event_type"; "stress_multiplier"].
Proof.
  assert ("academic_events" ∈ tables Fixture.store) as H1
    by (unfold Fixture.store; simpl; repeat constructor).
  split; [exact H1|].
  exact (proj2 (proj2 (proj2 (@events_never_loaded Fixture.numpy
           Fixture.sklearn Fixture.cross_val_score Fixture.with_tabpfn
           Fixture.s0 [] 0%Z)) Fixture.store H1)).
Defined.

(** C3, as the specification states it, fails: the store holds an events
    table with an event of the last 30 days, the run completes, and the
    only statements it sent are [SHOW TABLES] and the energy query. *)
Lemma events_not_loaded_counterexample :
  select_academic_events Fixture.store = [Fixture.exam] ∧
  exit_status
    (@run Fixture.numpy Fixture.sklearn _
       (script Fixture.cross_val_score Fixture.with_tabpfn) Fixture.s0).1
    = 0%Z ∧
  queries
    (trace (@run Fixture.numpy Fixture.sklearn _
              (script Fixture.cross_val_score Fixture.with_tabpfn)
              Fixture.s0).2)
    = [SHOW_TABLES; SELECT_energy_logs].
Proof.
  split; [vm_compute; reflexivity|]. split; vm_compute; reflexivity.
Qed.

(** C1, as the specification states it, fails: with every package
    installed and no store, the generator returns a frame without rows,
    not 194, and the run ends in [sys.exit(1)]. *)
Lemma no_store_run_counterexample :
  (@run Fixture.numpy Fixture.sklearn _
     (script Fixture.cross_val_score Fixture.no_store) Fixture.s0).1
    = SysExit 1 ∧
  ∃ df : DataFrame,
    (@run Fixture.numpy Fixture.sklearn _
       (generate_synthetic_data 200) Fixture.s0).1 = Ok df ∧
    DataFrame.len df = 0 ∧ DataFrame.len df ≠ 194.
Proof.
  split.
  - rewrite (@script_run Fixture.numpy Fixture.sklearn Fixture.cross_val_score
               Fixture.no_store Fixture.s0 eq_refl eq_refl).
    destruct (@main_no_store Fixture.numpy Fixture.sklearn
                Fixture.cross_val_score (tabpfn_installed Fixture.no_store)
                (path_of Fixture.no_store) (filesystem Fixture.no_store)
                (mkState (trace Fixture.s0 ++
                   (if tabpfn_installed Fixture.no_store then []
                    else tabpfn_warning)) (rng Fixture.s0)) eq_refl)
      as [g Hg].
    rewrite Hg. reflexivity.
  - destruct (@generate_synthetic_data_run Fixture.numpy Fixture.sklearn 200)
      as (E & Mo & S & H & g & _ & _ & Hrun).
    eexists. rewrite (proj2 (Hrun _)). split; [reflexivity|].
    split; [reflexivity|]. unfold DataFrame.len. simpl. lia.
Qed.

Ltac eval_cbn H :=
  cbn -[insert singletonM np_unique np_mean np_std nl MIN_SAMPLES] in H.

Ltac eval_oracle H :=
  match type of H with
  | context [train_test_split ?X ?y] =>
      destruct (train_test_split X y) as [?|[[[? ?] ?] ?]] eqn:?
  | context [tabpfn_fit ?X ?y] => destruct (tabpfn_fit X y) as [?|?] eqn:?
  | context [tabpfn_predict ?m ?X] =>
      destruct (tabpfn_predict m X) as [?|?] eqn:?
  | context [accuracy_score ?a ?b] =>
      destruct (accuracy_score a b) as [?|?] eqn:?
  | context [classification_report ?a ?b] =>
      destruct (classification_report a b) as [?|?] eqn:?
  | context [draws ?f ?n ?g] => destruct (draws f n g) as [? ?] eqn:?
  | context [match np_unique ?y with _ => _ end] =>
      destruct (np_unique y) as [|? ?] eqn:?
  end.

Section Evaluate.
Context `{np : Numpy} `{sk : !Sklearn}.
Variable cross_val_score :
  classifier → matrix → list Z → RandomState →
  (exn + list float) * RandomState.

Lemma evaluate_enough tab X y s o s' :
  MIN_SAMPLES ≤ length X →
  run (evaluate_tabpfn cross_val_score tab X y) s = (o, s') →
  ∃ t, trace s' = trace s ++ t ∧
       head (library_calls t) = Some Split ∧
       library_calls t `prefix_of` all_calls ∧
       Forall (λ c, c = if tab then TabPFNClassifier None
                        else MockTabPFNClassifier None) (fitted t) ∧
       (∀ c, o ≠ SysExit c) ∧
       ∀ r, o = Ok r →
         library_calls t = all_calls ∧
         ∃ acc scores rep,
           r = {[ "samples" := PInt (length X);
                  "features" := PInt (n_features X);
                  "classes" := PInts (np_unique y);
                  "accuracy" := PFloat acc;
                  "cv_mean" := PFloat (np_mean scores);
                  "cv_std" := PFloat (np_std scores);
                  "classification_report" := PReport rep ]}.
Proof.
  intros HX Hrun. unfold evaluate_tabpfn in Hrun.
  destruct (decide (length X < MIN_SAMPLES)) as [Hlt|_]; [lia|].
  destruct tab; eval_cbn Hrun;
    repeat (eval_oracle Hrun; eval_cbn Hrun);
    try (destruct (cross_val_score _ _ _ _) as [[?|?] ?] eqn:?; eval_cbn Hrun);
    repeat (eval_oracle Hrun; eval_cbn Hrun);
    injection Hrun as <- <-; cbn [trace];
    rewrite <- ?app_assoc; (eexists; split; [reflexivity|]);
    (split; [reflexivity|]); (split; [by eexists|]);
    (split; [simpl; repeat (constructor; try reflexivity)|]);
    (split; [done|]); intros ? [= <-];
    (split; [reflexivity|]); by eexists _, _, _.
Qed.

Lemma evaluate_insufficient tab X y s :
  length X < MIN_SAMPLES →
  run (evaluate_tabpfn cross_val_score tab X y) s =
  (Ok {[ "error" := PStr [Lit "Insufficient samples ("; FNat (length X);
                          Lit " < "; FNat MIN_SAMPLES; Lit ")"];
         "samples" := PInt (length X) ]}, s).
Proof.
  intros HX. unfold evaluate_tabpfn. by rewrite decide_True by done.
Qed.

(** C4. On a matrix of exactly 19 rows the evaluator returns the error
    dictionary with [samples = 19] and leaves the state as it was: nothing
    is printed, no library function is called, no classifier fitted. On 20
    rows it calls [train_test_split] first, then, as long as each call
    returns, fit, predict, the accuracy score, the cross-validation and
    the report, in this order; when it returns, all six were called and
    the result carries an accuracy and no error entry. *)
Theorem evaluate_sample_threshold (tab : bool) (X : matrix) (y : list Z)
    (s : state) :
  (length X = 19 →
     run (evaluate_tabpfn cross_val_score tab X y) s =
       (Ok {[ "error" := PStr [Lit "Insufficient samples ("; FNat 19;
                               Lit " < "; FNat 20; Lit ")"];
              "samples" := PInt 19 ]}, s)) ∧
  (length X = 20 →
     ∃ t, trace (run (evaluate_tabpfn cross_val_score tab X y) s).2
            = trace s ++ t ∧
          head (library_calls t) = Some Split ∧
          library_calls t `prefix_of` all_calls ∧
          ∀ r, (run (evaluate_tabpfn cross_val_score tab X y) s).1 = Ok r →
            library_calls t = all_calls ∧
            r !! "error" = None ∧
            r !! "samples" = Some (PInt 20) ∧
            ∃ acc, r !! "accuracy" = Some (PFloat acc)).
Proof.
  split; intros HX.
  - rewrite evaluate_insufficient by (unfold MIN_SAMPLES; lia).
    by rewrite HX.
  - destruct (run (evaluate_tabpfn cross_val_score tab X y) s) as [o s'] eqn:Hrun.
    destruct (evaluate_enough tab X y s o s')
      as (t & Ht & Hhead & Hpre & _ & _ & Hok); [unfold MIN_SAMPLES; lia|done|].
    exists t. split; [done|]. split; [done|]. split; [done|].
    simpl. intros r ->.
    destruct (Hok r eq_refl) as (Hall & acc & scores & rep & ->).
    rewrite HX. split; [done|]. split; [reflexivity|]. split; [reflexivity|].
    by exists acc.
Qed.

End Evaluate.

Lemma evaluate_sample_threshold_witness :
  length (replicate 19 [Num 1]) = 19 ∧
  length (replicate 20 [Num 1]) = 20 ∧
  (@run Fixture.numpy Fixture.sklearn _
     (evaluate_tabpfn Fixture.cross_val_score false
        (replicate 19 [Num 1]) (replicate 19 1%Z)) Fixture.s0).2
    = Fixture.s0 ∧
  ∃ t, library_calls t `prefix_of` all_calls ∧
       trace (@run Fixture.numpy Fixture.sklearn _
                (evaluate_tabpfn Fixture.cross_val_score false
                   (replicate 20 [Num 1]) (replicate 20 1%Z)) Fixture.s0).2
         = trace Fixture.s0 ++ t.
Proof.
  pose proof (@evaluate_sample_threshold Fixture.numpy Fixture.sklearn
                Fixture.cross_val_score false (replicate 19 [Num 1])
                (replicate 19 1%Z) Fixture.s0) as [H19 _].
  pose proof (@evaluate_sample_threshold Fixture.numpy Fixture.sklearn
                Fixture.cross_val_score false (replicate 20 [Num 1])
                (replicate 20 1%Z) Fixture.s0) as [_ H20].
  split; [reflexivity|]. split; [reflexivity|]. split.
  - rewrite (H19 eq_refl). reflexivity.
  - destruct (H20 eq_refl) as (t & Ht & _ & Hpre & _). by exists t.
Defined.

Section Selector.
Context `{np : Numpy} `{sk : !Sklearn}.

(** C6. The selector keeps exactly the candidate features that are columns
    of the frame, in the order of the candidate list; when fewer than 3
    remain it prints the diagnostic with the names left and returns two
    empty arrays: it does not raise and does not exit. *)
Theorem feature_selection (df : DataFrame) (s : state) :
  (∀ c, c ∈ available df ↔ c ∈ feature_cols ∧ c ∈ DataFrame.names df) ∧
  available df `sublist_of` feature_cols ∧
  (length (available df) < 3 →
     run (prepare_features df) s =
       (Ok ([], []),
        mkState (trace s ++
                 [Print [Lit "Insufficient features. Available: ";
                         FStrList (available df)]])
                (rng s))).
Proof.
  split; [|split].
  - intros c. unfold available. by rewrite list_elem_of_filter, (comm and).
  - apply sublist_filter.
  - intros Hlt. unfold prepare_features. by rewrite decide_True by done.
Qed.

End Selector.

Lemma feature_selection_witness :
  length (available empty_frame) < 3 ∧
  @run Fixture.numpy Fixture.sklearn _ (prepare_features empty_frame)
    Fixture.s0
  = (Ok ([], []),
     mkState [Print [Lit "Insufficient features. Available: "; FStrList []]]
             (rng Fixture.s0)).
Proof.
  assert (length (available empty_frame) < 3) as H by (vm_compute; lia).
  split; [exact H|].
  exact (proj2 (proj2 (@feature_selection Fixture.numpy Fixture.sklearn
                         empty_frame Fixture.s0)) H).
Defined.

(** *** Comparisons of binary64 floats *)

Lemma SFcompare_antisym x y :
  SFcompare y x = option_map CompOpp (SFcompare x y).
Proof.
  destruct x as [sx|sx| |sx mx ex], y as [sy|sy| |sy my ey]; simpl;
    try reflexivity; try (by destruct sx); try (by destruct sy);
    try (by destruct sx, sy).
  destruct sx, sy; simpl; try reflexivity;
    rewrite (Z.compare_antisym ex ey); destruct (ex ?= ey)%Z; simpl;
    try reflexivity;
    by rewrite ?CompOpp_involutive, (Pos.compare_cont_antisym _ _ Eq).
Qed.

Lemma SFcompare_None x y :
  SFcompare x y = None → x = S754_nan ∨ y = S754_nan.
Proof. destruct x, y; simpl; try done; auto. Qed.

Lemma SFcompare_nan_r x : SFcompare x S754_nan = None.
Proof. by destruct x. Qed.

(** For a number [a], a float lies above [b] and not above [a] exactly
    when it lies above [b] and is at most [a]; NaN does neither. *)
Lemma float_between (a b m : float) :
  Prim2SF a ≠ S754_nan →
  ((a <? m)%float = false ∧ (b <? m)%float = true) ↔
  ((b <? m)%float = true ∧ (m <=? a)%float = true).
Proof.
  intros Ha. rewrite !ltb_spec, leb_spec. unfold SFltb, SFleb.
  rewrite (SFcompare_antisym (Prim2SF a) (Prim2SF m)).
  destruct (SFcompare (Prim2SF a) (Prim2SF m)) as [[| |]|] eqn:Ec; simpl;
    try tauto.
  - split; [|intros [? ?]; done]. intros [? ?]; done.
  - apply SFcompare_None in Ec as [?|Em]; [done|].
    rewrite Em, SFcompare_nan_r. split; intros [? ?]; done.
Qed.

Section Verdict.
Context `{np : Numpy} `{sk : !Sklearn}.

Lemma verdicts_distinct :
  PROMISING ≠ MARGINAL ∧ PROMISING ≠ WEAK ∧ MARGINAL ≠ WEAK.
Proof. repeat split; discriminate. Qed.

(** C7. The verdict is PROMISING exactly when the cross-validation mean
    is above 0.6, MARGINAL exactly when it is above 0.4 and at most 0.6,
    and WEAK in every other case (a mean that is not a number included).
    The comparisons are those of binary64 floats, the constants the
    floats Python reads [0.6] and [0.4] as. *)
Theorem verdict_tiers (cv_mean : float) :
  (verdict_of cv_mean = PROMISING ↔ (0.6 <? cv_mean)%float = true) ∧
  (verdict_of cv_mean = MARGINAL ↔
     (0.4 <? cv_mean)%float = true ∧ (cv_mean <=? 0.6)%float = true) ∧
  (verdict_of cv_mean = WEAK ↔
     (0.6 <? cv_mean)%float = false ∧
     ¬ ((0.4 <? cv_mean)%float = true ∧ (cv_mean <=? 0.6)%float = true)) ∧
  interpret (PFloat cv_mean) = mret (verdict_of cv_mean).
Proof.
  assert (Prim2SF 0.6 ≠ S754_nan) as Hnum by (vm_compute; discriminate).
  pose proof (float_between 0.6 0.4 cv_mean Hnum) as Hmid.
  destruct verdicts_distinct as (Hpm & Hpw & Hmw).
  split; [|split; [|split; [|reflexivity]]]; unfold verdict_of;
    destruct (0.6 <? cv_mean)%float eqn:Hhi;
    destruct (0.4 <? cv_mean)%float eqn:Hlo;
    split; try done; try tauto;
    try (intros [? ?]; tauto); try (intros ?; tauto);
    try (intros [? ?]; done);
    try (intros H; apply Hmid in H; destruct H; done);
    try (intros _; split; [done|intros [? ?]; done]).
Qed.

End Verdict.


(** ** The two halves of [main] *)

Section MainPhases.
Context `{np : Numpy} `{sk : !Sklearn}.
Variable cross_val_score :
  classifier → matrix → list Z → RandomState →
  (exn + list float) * RandomState.

Lemma run_bind_assoc {A B C} (m : M A) (f : A → M B) (g : B → M C) s :
  run ((m ≫= f) ≫= g) s = run (m ≫= λ a, f a ≫= g) s.
Proof. rewrite !run_bind. by destruct (run m s) as [[a| |] s1]. Qed.

Lemma run_bind_ext {A B} (m : M A) (f g : A → M B) s :
  (∀ a s1, run (f a) s1 = run (g a) s1) →
  run (m ≫= f) s = run (m ≫= g) s.
Proof.
  intros Hfg. rewrite !run_bind. destruct (run m s) as [[a| |] s1]; auto.
Qed.

Lemma run_ret_bind {A B} (a : A) (f : A → M B) s :
  run (mret a ≫= f) s = run (f a) s.
Proof. reflexivity. Qed.

Ltac phase_step :=
  first
    [ reflexivity
    | rewrite run_bind_assoc
    | rewrite run_ret_bind
    | apply run_bind_ext; intros ? ?
    | match goal with
      | |- run ((let (_, _) := ?x in _) ≫= _) _ = _ => destruct x
      | |- run ((match ?x with _ => _ end) ≫= _) _ = _ => destruct x
      | |- run (let (_, _) := ?x in _) _ = _ => destruct x
      end ].

Lemma main_phases tab path fs s :
  run (main cross_val_score tab path fs) s =
  run ('(X, y) ← data_phase path fs; eval_phase cross_val_score tab X y) s.
Proof.
  symmetry. unfold main, data_phase, eval_phase, report_phase.
  repeat phase_step.
Qed.

End MainPhases.

Ltac step_print :=
  rewrite run_bind;
  match goal with
  | |- context [run (print ?l) ?st] =>
      change (run (print l) st)
        with (@Ok unit (), mkState (trace st ++ [Print l]) (rng st))
  end;
  cbv iota beta; cbn [trace rng].

Section EvalPhase.
Context `{np : Numpy} `{sk : !Sklearn}.
Variable cross_val_score :
  classifier → matrix → list Z → RandomState →
  (exn + list float) * RandomState.

Lemma evaluation_lookup X y acc scores rep :
  let r := evaluation X y acc scores rep in
  r !! "samples" = Some (PInt (length X)) ∧
  r !! "features" = Some (PInt (n_features X)) ∧
  r !! "classes" = Some (PInts (np_unique y)) ∧
  r !! "accuracy" = Some (PFloat acc) ∧
  r !! "cv_mean" = Some (PFloat (np_mean scores)) ∧
  r !! "cv_std" = Some (PFloat (np_std scores)) ∧
  r !! "error" = None.
Proof. repeat split; reflexivity. Qed.

Lemma item_found (r : gmap string pyval) key v :
  r !! key = Some v → item r key = mret v.
Proof. intros H. unfold item. by rewrite H. Qed.

Lemma report_phase_run tab X y acc scores rep s :
  run (report_phase tab (evaluation X y acc scores rep)) s =
  (Ok (evaluation X y acc scores rep),
   mkState (trace s ++ report_lines tab X y acc scores) (rng s)).
Proof.
  destruct (evaluation_lookup X y acc scores rep)
    as (H1 & H2 & H3 & H4 & H5 & H6 & _).
  unfold report_phase, report_lines.
  rewrite (item_found _ _ _ H1), (item_found _ _ _ H2), (item_found _ _ _ H3),
    (item_found _ _ _ H4), !(item_found _ _ _ H5), (item_found _ _ _ H6).
  destruct tab;
    lazy -[app trace rng nl str_mul evaluation np_unique np_mean np_std
           n_features verdict_of length];
    cbn [trace rng]; rewrite <- !app_assoc; reflexivity.
Qed.

(** Below the threshold the second half of [main] exits, whatever the
    flag. *)
Lemma eval_phase_insufficient tab X y s :
  length X < MIN_SAMPLES →
  run (eval_phase cross_val_score tab X y) s =
  (SysExit 1,
   mkState (trace s ++
            [ Print [Lit nl; Lit (str_mul "-" 40)];
              Print [Lit "Evaluating TabPFN Classifier"];
              Print [Lit (str_mul "-" 40)];
              Print [Lit nl; Lit "Error: "; Lit "Insufficient samples (";
                     FNat (length X); Lit " < "; FNat MIN_SAMPLES; Lit ")"] ])
           (rng s)).
Proof.
  intros HX. unfold eval_phase. do 3 step_print.
  rewrite run_bind, evaluate_insufficient by done. cbv iota beta.
  set (r := {[ "error" := _ ; "samples" := _ ]} : gmap string pyval).
  assert (r !! "error" = Some (PStr [Lit "Insufficient samples (";
            FNat (length X); Lit " < "; FNat MIN_SAMPLES; Lit ")"])) as Herr
    by reflexivity.
  rewrite run_bind.
  rewrite decide_True by (apply elem_of_dom; by eexists).
  rewrite (item_found _ _ _ Herr).
  lazy -[app trace rng nl str_mul MIN_SAMPLES length].
  cbn [trace rng]. rewrite <- !app_assoc. reflexivity.
Qed.

(** At or above the threshold it never exits, and when it returns the
    report was printed. *)
Lemma eval_phase_enough tab X y s o s' :
  MIN_SAMPLES ≤ length X →
  run (eval_phase cross_val_score tab X y) s = (o, s') →
  (∀ c, o ≠ SysExit c) ∧
  ∀ r, o = Ok r →
    ∃ acc scores rep t,
      r = evaluation X y acc scores rep ∧
      trace s' = trace s ++ t ++ report_lines tab X y acc scores ∧
      library_calls t = all_calls.
Proof.
  intros HX. unfold eval_phase. do 3 step_print. rewrite run_bind.
  destruct (run (evaluate_tabpfn _ _ _ _) _) as [o1 s1] eqn:Heval.
  destruct (evaluate_enough cross_val_score tab X y _ o1 s1 HX Heval)
    as (t & Ht & _ & _ & _ & Hne & Hok).
  destruct o1 as [r| |]; [|by intros [= <- <-]|by destruct (Hne code)].
  destruct (Hok r eq_refl) as (Hall & acc & scores & rep & ->).
  fold (evaluation X y acc scores rep).
  destruct (evaluation_lookup X y acc scores rep) as (_ & _ & _ & _ & _ & _ & Herr).
  rewrite run_bind.
  rewrite decide_False by (intros [? ?]%elem_of_dom; congruence).
  change (run (mret ()) s1) with (@Ok unit (), s1). cbv iota beta.
  rewrite report_phase_run. intros [= <- <-].
  split; [done|]. intros r [= <-].
  exists acc, scores, rep, 
    ([Print [Lit nl; Lit (str_mul "-" 40)];
      Print [Lit "Evaluating TabPFN Classifier"];
      Print [Lit (str_mul "-" 40)]] ++ t).
  split; [done|]. split.
  - cbn [trace]. rewrite Ht. cbn [trace]. by rewrite <- !app_assoc.
  - done.
Qed.

End EvalPhase.


(** ** A missing tabpfn *)

Section Stateless.
Context `{np : Numpy} `{sk : !Sklearn}.

Lemma stateless_lift {A} (o : outcome A) : stateless (lift o).
Proof. by exists o. Qed.

Lemma stateless_ret {A} (a : A) : stateless (mret a).
Proof. by exists (Ok a). Qed.

Lemma stateless_emit e : stateless (emit e).
Proof. by exists (Ok ()). Qed.

Lemma stateless_sys_exit {A} c : stateless (@sys_exit _ _ A c).
Proof. by exists (SysExit c). Qed.

Lemma stateless_bind {A B} (m : M A) (f : A → M B) :
  stateless m → (∀ a, stateless (f a)) → stateless (m ≫= f).
Proof.
  intros [o Ho] Hf. destruct o as [a|e|c].
  - destruct (Hf a) as [o' Ho']. exists o'. intros s. rewrite run_bind.
    specialize (Ho s). destruct (run m s) as [o1 s1]. simpl in Ho. subst o1.
    apply Ho'.
  - exists (Raise e). intros s. rewrite run_bind.
    specialize (Ho s). destruct (run m s) as [o1 s1]. simpl in Ho. by subst o1.
  - exists (SysExit c). intros s. rewrite run_bind.
    specialize (Ho s). destruct (run m s) as [o1 s1]. simpl in Ho. by subst o1.
Qed.

Lemma stateless_generate_synthetic_data n :
  stateless (generate_synthetic_data n).
Proof.
  destruct (generate_synthetic_data_run n) as (E & Mo & S & H & g & _ & _ & Hrun).
  exists (Ok (mkFrame [] ((λ c : string * list cell, (c.1, [])) <$>
                            columns (synthetic_table n E Mo S H)))).
  intros s. by rewrite (proj2 (Hrun s)).
Qed.

End Stateless.

Ltac stateless_step :=
  lazymatch goal with
  | |- stateless (_ ≫= _) => apply stateless_bind; [|intros ?]
  | |- stateless (lift _) => apply stateless_lift
  | |- stateless (mret _) => apply stateless_ret
  | |- stateless (emit _) => apply stateless_emit
  | |- stateless (print _) => apply stateless_emit
  | |- stateless (execute _) => apply stateless_emit
  | |- stateless (sys_exit _) => apply stateless_sys_exit
  | |- stateless (generate_synthetic_data _) =>
      apply stateless_generate_synthetic_data
  | |- stateless (let (_, _) := ?x in _) => destruct x
  | |- stateless (match ?x with _ => _ end) => destruct x
  end.

Section DataPhase.
Context `{np : Numpy} `{sk : !Sklearn}.

Lemma stateless_load_energy_data conn : stateless (load_energy_data conn).
Proof. unfold load_energy_data. repeat stateless_step. Qed.

Lemma stateless_prepare_features df : stateless (prepare_features df).
Proof. unfold prepare_features. repeat stateless_step. Qed.

Lemma stateless_data_phase path fs : stateless (data_phase path fs).
Proof.
  unfold data_phase.
  repeat first [ apply stateless_load_energy_data
               | apply stateless_prepare_features
               | stateless_step ].
Qed.

End DataPhase.

Ltac data_step :=
  lazymatch goal with
  | |- emits_only _ (_ ≫= _) => apply emits_bind; [|intros ?]
  | |- emits_only _ (lift _) => apply emits_lift
  | |- emits_only _ (mret _) => apply emits_ret
  | |- emits_only _ (emit _) => apply emits_emit; exact I
  | |- emits_only _ (print _) => apply emits_emit; exact I
  | |- emits_only _ (execute _) => apply emits_emit; exact I
  | |- emits_only _ (sys_exit _) => apply emits_sys_exit
  | |- emits_only _ (let (_, _) := ?x in _) => destruct x
  | |- emits_only _ (match ?x with _ => _ end) => destruct x
  end.

Lemma np_unique_nil y : np_unique y = [] → y = [].
Proof.
  unfold np_unique. intros H.
  assert (remove_dups y = []) as Hr.
  { apply Permutation_nil_r. rewrite <- H. by rewrite merge_sort_Permutation. }
  destruct y as [|z y]; [done|].
  assert (z ∈ remove_dups (z :: y)) as Hz by (apply elem_of_remove_dups; left).
  rewrite Hr in Hz. by apply elem_of_nil in Hz.
Qed.

Section Returns.
Context `{np : Numpy} `{sk : !Sklearn}.
Variable cross_val_score :
  classifier → matrix → list Z → RandomState →
  (exn + list float) * RandomState.

(** With enough samples and a library that returns, the evaluation with
    the mock returns. *)
Lemma evaluate_returns X y s :
  MIN_SAMPLES ≤ length X → library_returns cross_val_score X y →
  ∃ r s', run (evaluate_tabpfn cross_val_score false X y) s = (Ok r, s').
Proof.
  intros HX (Xtr & Xte & ytr & yte & Hsplit & Hne & Hacc & Hrep & Hcv).
  destruct (run _ s) as [o s'] eqn:Hrun. unfold evaluate_tabpfn in Hrun.
  destruct (decide (length X < MIN_SAMPLES)) as [Hlt|_]; [lia|].
  eval_cbn Hrun. rewrite Hsplit in Hrun. eval_cbn Hrun.
  destruct (np_unique ytr) as [|c cs] eqn:Hu; [by apply np_unique_nil in Hu|].
  eval_cbn Hrun.
  destruct (draws _ _ _) as [ypred g1]. eval_cbn Hrun.
  destruct (Hacc ypred) as [acc Ha]. rewrite Ha in Hrun. eval_cbn Hrun.
  destruct (Hcv g1) as [scores Hs].
  destruct (cross_val_score _ X y g1) as [r g2]. simpl in Hs. subst r.
  eval_cbn Hrun.
  destruct (Hrep ypred) as [rep Hr]. rewrite Hr in Hrun. eval_cbn Hrun.
  injection Hrun as <- <-. by eexists _, _.
Qed.

(** Then the second half of [main] returns too. *)
Lemma eval_phase_returns X y s :
  MIN_SAMPLES ≤ length X → library_returns cross_val_score X y →
  ∃ r s', run (eval_phase cross_val_score false X y) s = (Ok r, s').
Proof.
  intros HX Hlib.
  unfold eval_phase. do 3 step_print. rewrite run_bind.
  match goal with
  | |- context [run (evaluate_tabpfn _ _ _ _) ?st] =>
      destruct (evaluate_returns X y st HX Hlib) as (r & s1 & He);
      destruct (evaluate_enough _ _ _ _ _ _ _ HX He)
        as (t & _ & _ & _ & _ & _ & Hok)
  end.
  rewrite He. cbv iota beta.
  destruct (Hok r eq_refl) as (_ & acc & scores & rep & ->).
  fold (evaluation X y acc scores rep).
  destruct (evaluation_lookup X y acc scores rep)
    as (_ & _ & _ & _ & _ & _ & Herr).
  rewrite run_bind.
  rewrite decide_False by (intros [? ?]%elem_of_dom; congruence).
  change (run (mret ()) s1) with (@Ok unit (), s1). cbv iota beta.
  rewrite report_phase_run. by eexists _, _.
Qed.

End Returns.

Section Downgrade.
Context `{np : Numpy} `{sk : !Sklearn}.
Variable cross_val_score :
  classifier → matrix → list Z → RandomState →
  (exn + list float) * RandomState.

Lemma data_generate_synthetic_data n :
  emits_only data_event (generate_synthetic_data n).
Proof. unfold generate_synthetic_data, synthetic_frame. repeat emits_step. Qed.

Lemma data_phase_events path fs : emits_only data_event (data_phase path fs).
Proof.
  unfold data_phase, load_energy_data, prepare_features.
  repeat first [apply data_generate_synthetic_data | data_step].
Qed.

Lemma library_calls_app t1 t2 :
  library_calls (t1 ++ t2) = library_calls t1 ++ library_calls t2.
Proof. apply omap_app. Qed.

Lemma fitted_app t1 t2 : fitted (t1 ++ t2) = fitted t1 ++ fitted t2.
Proof. apply omap_app. Qed.

Lemma data_events_calls t :
  Forall data_event t → library_calls t = [] ∧ fitted t = [].
Proof.
  induction 1 as [|e t He _ [IH1 IH2]]; [done|].
  destruct e; try done.
Qed.

(** One classifier is fitted for each call of [fit]. *)
Lemma fitted_length t :
  length (fitted t) =
  length (omap (λ c, match c with Fit => Some () | _ => None end)
               (library_calls t)).
Proof.
  induction t as [|e t IH]; [done|]. destruct e; simpl; try done.
  by rewrite IH.
Qed.

Lemma main_fitted tab t :
  Forall (main_event tab) t → Forall (λ c, c = initial_classifier tab) (fitted t).
Proof.
  induction 1 as [|e t He _ IH]; [constructor|].
  destruct e; simpl; try done. by constructor.
Qed.

(** With enough samples and a library that returns on the mock, the
    script without tabpfn runs to its end. *)
Lemma script_returns w s X y :
  duckdb_installed w = true → sklearn_installed w = true →
  tabpfn_installed w = false →
  (run (data_phase (path_of w) (filesystem w)) s).1 = Ok (X, y) →
  MIN_SAMPLES ≤ length X → library_returns cross_val_score X y →
  ∃ r, (run (script cross_val_score w) s).1 = Ok r.
Proof.
  intros Hd Hs Ht Hdata HX Hlib.
  rewrite (script_run cross_val_score w s Hd Hs), Ht, main_phases, run_bind.
  destruct (stateless_data_phase (path_of w) (filesystem w)) as [o Ho].
  rewrite Ho in Hdata. subst o.
  match goal with
  | |- context [run (data_phase _ _) ?st] =>
      specialize (Ho st); destruct (run (data_phase (path_of w) (filesystem w)) st) as [o1 s1]
  end.
  simpl in Ho. subst o1.
  destruct (eval_phase_returns cross_val_score X y s1 HX Hlib) as (r & s' & Hr).
  rewrite Hr. by exists r.
Qed.

(** Without tabpfn: the warning once, then [main] with the mock; the
    same exits as with tabpfn; a run that reaches its end fitted the mock
    and printed the report. *)
Lemma warning_then_mock (w : world) (s : state) :
  duckdb_installed w = true → sklearn_installed w = true →
  tabpfn_installed w = false →
  ∃ t,
    trace (run (script cross_val_score w) s).2
      = trace s ++ tabpfn_warning ++ t ∧
    Forall (main_event false) t ∧
    (∀ c, (run (script cross_val_score w) s).1 = SysExit c ↔
          (run (script cross_val_score (install_tabpfn w)) s).1 = SysExit c) ∧
    (∀ r, (run (script cross_val_score w) s).1 = Ok r →
       ∃ X y acc scores rep t',
         r = evaluation X y acc scores rep ∧
         r !! "cv_mean" = Some (PFloat (np_mean scores)) ∧
         t = t' ++ report_lines false X y acc scores ∧
         library_calls t' = all_calls ∧
         fitted t' = [MockTabPFNClassifier None]).
Proof.
  intros Hd Hs Ht.
  pose proof (script_run cross_val_score w s Hd Hs) as Hrun.
  pose proof (script_run cross_val_score (install_tabpfn w) s Hd Hs) as Hrun'.
  rewrite Ht in Hrun. cbn [tabpfn_installed install_tabpfn filesystem] in Hrun'.
  change (path_of (install_tabpfn w)) with (path_of w) in Hrun'.
  set (sw := mkState (trace s ++ tabpfn_warning) (rng s)) in *.
  set (s0 := mkState (trace s ++ []) (rng s)) in *.
  rewrite Hrun, Hrun'. clear Hrun Hrun'.
  destruct (main_events cross_val_score false (path_of w) (filesystem w) sw)
    as (T & HT & HP).
  rewrite !main_phases, !run_bind. rewrite main_phases, run_bind in HT.
  destruct (stateless_data_phase (path_of w) (filesystem w)) as [o Ho].
  destruct (data_phase_events (path_of w) (filesystem w) sw)
    as (td & Htd & Hdata).
  pose proof (Ho sw) as Ho1. pose proof (Ho s0) as Ho2.
  destruct (run (data_phase _ _) sw) as [o1 s1].
  destruct (run (data_phase _ _) s0) as [o2 s2].
  simpl in Ho1, Ho2, Htd. subst o1 o2.
  exists T. split; [|split; [done|]].
  { rewrite HT. unfold sw. cbn [trace]. by rewrite app_assoc. }
  destruct o as [[X y]|e|c0]; [|by split|by split].
  destruct (decide (length X < MIN_SAMPLES)) as [HX|HX].
  { rewrite !eval_phase_insufficient by done. by split. }
  apply Nat.nlt_ge in HX.
  destruct (run (eval_phase _ false X y) s1) as [o3 s3] eqn:E3.
  destruct (run (eval_phase _ true X y) s2) as [o4 s4] eqn:E4.
  destruct (eval_phase_enough _ _ _ _ _ _ _ HX E3) as [Hne3 Hok3].
  destruct (eval_phase_enough _ _ _ _ _ _ _ HX E4) as [Hne4 _].
  split.
  { intros c. split; simpl; intros ->; [by destruct (Hne3 c)|by destruct (Hne4 c)]. }
  simpl. intros r ->.
  destruct (Hok3 r eq_refl) as (acc & scores & rep & te & -> & Htr & Hcalls).
  cbn [snd] in HT. rewrite Htr, Htd in HT. unfold sw in HT. cbn [trace] in HT.
  rewrite <- !app_assoc in HT. do 2 apply app_inv_head in HT. subst T.
  exists X, y, acc, scores, rep, (td ++ te).
  split; [done|]. split; [apply evaluation_lookup|].
  split; [by rewrite <- app_assoc|].
  destruct (data_events_calls td Hdata) as [Hc Hf].
  assert (library_calls (td ++ te) = all_calls) as Hall
    by (by rewrite library_calls_app, Hc).
  split; [done|].
  apply main_fitted in HP. rewrite app_assoc, fitted_app in HP.
  apply Forall_app in HP as [HP _].
  pose proof (fitted_length (td ++ te)) as Hlen. rewrite Hall in Hlen.
  destruct (fitted (td ++ te)) as [|clf [|??]]; try done.
  by apply Forall_cons in HP as [-> _].
Qed.

(** C5, as the code has it. When tabpfn is the only missing package, the
    script prints the two lines of the warning once and goes on into
    [main] with the mock classifier: nothing [main] prints repeats the
    warning and every classifier it builds is the mock. The run ends in
    [sys.exit] exactly when the run of the same world with tabpfn
    installed does. When the run reaches its end, it returns the
    dictionary of a complete evaluation, the classifier fitted was the
    mock, and the last lines printed are the report with the verdict. It
    does reach its end whenever the prepared arrays have at least
    [MIN_SAMPLES] rows and the library calls made with the mock return. *)
Theorem missing_tabpfn_downgrades (w : world) (s : state) :
  duckdb_installed w = true → sklearn_installed w = true →
  tabpfn_installed w = false →
  ∃ t,
    trace (run (script cross_val_score w) s).2
      = trace s ++ tabpfn_warning ++ t ∧
    Forall (main_event false) t ∧
    (∀ c, (run (script cross_val_score w) s).1 = SysExit c ↔
          (run (script cross_val_score (install_tabpfn w)) s).1 = SysExit c) ∧
    (∀ r, (run (script cross_val_score w) s).1 = Ok r →
       ∃ X y acc scores rep t',
         r = evaluation X y acc scores rep ∧
         r !! "cv_mean" = Some (PFloat (np_mean scores)) ∧
         t = t' ++ report_lines false X y acc scores ∧
         library_calls t' = all_calls ∧
         fitted t' = [MockTabPFNClassifier None]) ∧
    (∀ X y,
       (run (data_phase (path_of w) (filesystem w)) s).1 = Ok (X, y) →
       MIN_SAMPLES ≤ length X → library_returns cross_val_score X y →
       ∃ r, (run (script cross_val_score w) s).1 = Ok r).
Proof.
  intros Hd Hs Ht.
  destruct (warning_then_mock w s Hd Hs Ht) as (t & Htr & Hev & Hexit & Hok).
  exists t. split; [exact Htr|]. split; [exact Hev|].
  split; [exact Hexit|]. split; [exact Hok|].
  intros X y. by apply script_returns.
Qed.

End Downgrade.

Lemma missing_tabpfn_downgrades_witness :
  exit_status
    (@run Fixture.numpy Fixture.sklearn _
       (script Fixture.cross_val_score Fixture.without_tabpfn) Fixture.s0).1
    = 0%Z ∧
  (∃ X y,
     (@run Fixture.numpy Fixture.sklearn _
        (data_phase (path_of Fixture.without_tabpfn)
           (filesystem Fixture.without_tabpfn)) Fixture.s0).1 = Ok (X, y) ∧
     MIN_SAMPLES ≤ length X ∧
     library_returns Fixture.cross_val_score X y) ∧
  ∃ t,
    trace (@run Fixture.numpy Fixture.sklearn _
             (script Fixture.cross_val_score Fixture.without_tabpfn)
             Fixture.s0).2
      = trace Fixture.s0 ++ tabpfn_warning ++ t ∧
    Forall (main_event false) t.
Proof.
  split; [vm_compute; reflexivity|]. split.
  { eexists _, _. split; [vm_compute; reflexivity|].
    split; [vm_compute; lia|].
    eexists _, _, _, _. split; [reflexivity|].
    split; [vm_compute; discriminate|].
    split; [intros; eexists; reflexivity|].
    split; [intros; eexists; reflexivity|].
    intros; eexists; reflexivity. }
  destruct (@missing_tabpfn_downgrades Fixture.numpy Fixture.sklearn
              Fixture.cross_val_score Fixture.without_tabpfn Fixture.s0
              eq_refl eq_refl eq_refl) as (t & Ht & HP & _).
  exists t. split; [exact Ht|exact HP].
Defined.

(** With a cross-validation that cannot clone the mock, the run of a
    world without tabpfn passes the sample threshold, fits and predicts
    with the mock, and ends at the cross-validation with the exception:
    exit status 1 and no report, where the same world with tabpfn
    installed ends with status 0. *)
Lemma mock_not_clonable_counterexample :
  raised
    (@run Fixture.numpy Fixture.sklearn _
       (script cross_val_score_clone Fixture.without_tabpfn) Fixture.s0).1
    = Some (TypeError "Cannot clone object: no get_params") ∧
  exit_status
    (@run Fixture.numpy Fixture.sklearn _
       (script cross_val_score_clone Fixture.without_tabpfn) Fixture.s0).1
    = 1%Z ∧
  library_calls
    (trace (@run Fixture.numpy Fixture.sklearn _
              (script cross_val_score_clone Fixture.without_tabpfn)
              Fixture.s0).2)
    = [Split; Fit; Predict; Accuracy; CrossVal] ∧
  exit_status
    (@run Fixture.numpy Fixture.sklearn _
       (script cross_val_score_clone Fixture.with_tabpfn) Fixture.s0).1
    = 0%Z.
Proof.
  split; [vm_compute; reflexivity|].
  split; [vm_compute; reflexivity|].
  split; vm_compute; reflexivity.
Qed.
